(** * run_loompy: one shard of the loompy batch job

    A shallow embedding of [src/utilities/velocyto/run_loompy.py]:
    sample discovery from the object-store listing, grouping of the
    fastq files by a filename pattern, selection of the samples of one
    shard, and the per-sample loop (size gate, tool call, upload,
    clean-up).

    Python integers are [Z], Python [str] is [string] (one [ascii] per
    character, so object keys are taken to be ASCII), paths of
    [pathlib] are lists of components.  Exceptions are values of
    [exn]; code that can raise returns a [result].

    The collaborators the script reaches but that are not in this file
    (the listing functions of [utilities.s3_util], [s3c.upload_file],
    the helper called as [log_command]) are arguments of the
    definitions below. *)

From Stdlib Require Import ZArith List Bool Ascii String Lia.
From Stdlib Require Import Permutation Sorted Mergesort Orders Finite.
Import ListNotations.

Local Open Scope Z_scope.

(** ** Exceptions and results *)

Definition path := list string.

Inductive exn : Type :=
| ValueError (msg : string)
| UnboundLocalError (name : string)
| NameError (name : string)
| AttributeError (attr : string)
| FileExistsError (p : path)
| RuntimeError (msg : string)
| Collaborator (what : string).

Inductive result (A : Type) : Type :=
| Ok (a : A)
| Raise (e : exn).

Arguments Ok {A} a.
Arguments Raise {A} e.

(** ** Python primitives used by the script *)

Module Py.

(** [str.endswith] *)
Fixpoint prefixb (p s : list ascii) : bool :=
  match p, s with
  | [], _ => true
  | a :: p', b :: s' => Ascii.eqb a b && prefixb p' s'
  | _ :: _, [] => false
  end.

Definition endswith (s suffix : string) : bool :=
  prefixb (rev (list_ascii_of_string suffix)) (rev (list_ascii_of_string s)).

(** [x in s] on strings: [x] occurs as a substring of [s]. *)
Fixpoint substringb (x s : list ascii) : bool :=
  prefixb x s ||
  match s with
  | [] => false
  | _ :: s' => substringb x s'
  end.

Definition contains (x s : string) : bool :=
  substringb (list_ascii_of_string x) (list_ascii_of_string s).

(** [os.path.basename]: what follows the last slash. *)
Fixpoint basename_chars (s : list ascii) : list ascii :=
  match s with
  | [] => []
  | a :: s' =>
      if existsb (Ascii.eqb "/") s' then basename_chars s'
      else if Ascii.eqb a "/" then s' else a :: s'
  end.

Definition basename (s : string) : string :=
  string_of_list_ascii (basename_chars (list_ascii_of_string s)).

(** [os.path.join a b] of [posixpath]. *)
Definition path_join (a b : string) : string :=
  if prefixb ["/"%char] (list_ascii_of_string b) then b
  else if String.eqb a "" || endswith a "/" then String.append a b
  else String.append a (String.append "/" b).

(** [sum] of a list of integers. *)
Definition sum (l : list Z) : Z := fold_left Z.add l 0.

(** Slicing [l[start::step]].  The three functions below follow
    [PySlice_AdjustIndices] with no upper bound given. *)
Definition slice_start (len start step : Z) : Z :=
  if start <? 0 then
    let s := start + len in
    if s <? 0 then (if step <? 0 then -1 else 0) else s
  else if len <=? start then (if step <? 0 then len - 1 else len)
  else start.

Definition slice_stop (len step : Z) : Z :=
  if step <? 0 then -1 else len.

Definition slice_length (start stop step : Z) : Z :=
  if step <? 0 then
    (if stop <? start then (start - stop - 1) / (- step) + 1 else 0)
  else
    (if start <? stop then (stop - start - 1) / step + 1 else 0).

Definition slice_positions (len start step : Z) : list nat :=
  let s := slice_start len start step in
  let n := slice_length s (slice_stop len step) step in
  map (fun k => Z.to_nat (s + Z.of_nat k * step)) (seq 0 (Z.to_nat n)).

Definition pick {A} (l : list A) (ps : list nat) : list A :=
  flat_map (fun p => match nth_error l p with
                     | Some x => [x]
                     | None => []
                     end) ps.

Definition slice_from_step {A} (l : list A) (start step : Z)
  : result (list A) :=
  if step =? 0 then Raise (ValueError "slice step cannot be zero")
  else Ok (pick l (slice_positions (Z.of_nat (List.length l)) start step)).

End Py.

(** [sorted] on strings: ascending in the code-point order. *)
Module StringOrder <: TotalLeBool.

Definition t := string.

Definition leb := String.leb.

Definition leb_total
  : forall a1 a2, leb a1 a2 = true \/ leb a2 a1 = true
  := String.leb_total.

End StringOrder.

Module StringSort := Sort StringOrder.

Definition sorted (l : list string) : list string := StringSort.sort l.

(** ** Regular expressions

    The fragment of [re] the two filename patterns are written in: one
    capturing group at the head of the pattern, character classes,
    [+] on a class, an optional non-capturing group, and [$].  [run]
    lists the remaining inputs of all the ways to match, in the order
    the backtracking matcher tries them (greedy first). *)

Module Re.

Inductive cclass : Type :=
| Lit (a : ascii)
| AnyChar
| Digit
| NotSlash.

Inductive regex : Type :=
| Chr (c : cclass)
| Plus (c : cclass)
| Opt (r : regex)
| Cat (r1 r2 : regex)
| Eol.

(** A pattern of the shape [(captured)tail]. *)
Record pattern : Type := { captured : regex; tail : regex }.

Definition newline : ascii := "010"%char.

Definition is_digit (a : ascii) : bool :=
  (48 <=? nat_of_ascii a)%nat && (nat_of_ascii a <=? 57)%nat.

Definition cmatch (c : cclass) (a : ascii) : bool :=
  match c with
  | Lit b => Ascii.eqb b a
  | AnyChar => negb (Ascii.eqb a newline)
  | Digit => is_digit a
  | NotSlash => negb (Ascii.eqb a "/")
  end.

Fixpoint plus_run (c : cclass) (s : list ascii) : list (list ascii) :=
  match s with
  | a :: s' => if cmatch c a then plus_run c s' ++ [s'] else []
  | [] => []
  end.

Fixpoint run (r : regex) (s : list ascii) : list (list ascii) :=
  match r with
  | Chr c =>
      match s with
      | a :: s' => if cmatch c a then [s'] else []
      | [] => []
      end
  | Plus c => plus_run c s
  | Opt r1 => run r1 s ++ [s]
  | Cat r1 r2 => flat_map (run r2) (run r1 s)
  | Eol =>
      match s with
      | [] => [s]
      | [a] => if Ascii.eqb a newline then [s] else []
      | _ => []
      end
  end.

(** The groups of the matches of [p] that start at the head of [s]. *)
Definition match_here (p : pattern) (s : list ascii) : list (list ascii) :=
  flat_map
    (fun s1 => map (fun _ => firstn (List.length s - List.length s1) s)
                   (run (tail p) s1))
    (run (captured p) s).

(** [p.search(s)]: the first match at the leftmost position that has
    one; the value is [group(1)] of the match object. *)
Fixpoint search_chars (p : pattern) (s : list ascii) : option (list ascii) :=
  match match_here p s with
  | g :: _ => Some g
  | [] =>
      match s with
      | [] => None
      | _ :: s' => search_chars p s'
      end
  end.

Definition search (p : pattern) (s : string) : option string :=
  option_map string_of_list_ascii (search_chars p (list_ascii_of_string s)).

(** The concatenation [r rs...] of a non-empty sequence of items. *)
Fixpoint cat_all (r : regex) (rs : list regex) : regex :=
  match rs with
  | [] => r
  | r' :: rs' => Cat r (cat_all r' rs')
  end.

Definition c (a : ascii) : regex := Chr (Lit a).

End Re.

(** ** The script *)

Local Open Scope string_scope.

(** Line 180: [([^/]+)_R\d(?:_\d+)?.fastq.gz$] *)
Definition sample_re_smartseq2 : Re.pattern :=
  {| Re.captured := Re.Plus Re.NotSlash;
     Re.tail :=
       Re.cat_all (Re.c "_")
         [Re.c "R"; Re.Chr Re.Digit;
          Re.Opt (Re.Cat (Re.c "_") (Re.Plus Re.Digit));
          Re.Chr Re.AnyChar;
          Re.c "f"; Re.c "a"; Re.c "s"; Re.c "t"; Re.c "q";
          Re.Chr Re.AnyChar;
          Re.c "g"; Re.c "z"; Re.Eol] |}.

(** Line 181: [([^/]+)_L\d+_R\d(?:_\d+)?.fastq.gz$] *)
Definition sample_re_10x : Re.pattern :=
  {| Re.captured := Re.Plus Re.NotSlash;
     Re.tail :=
       Re.cat_all (Re.c "_")
         [Re.c "L"; Re.Plus Re.Digit;
          Re.c "_"; Re.c "R"; Re.Chr Re.Digit;
          Re.Opt (Re.Cat (Re.c "_") (Re.Plus Re.Digit));
          Re.Chr Re.AnyChar;
          Re.c "f"; Re.c "a"; Re.c "s"; Re.c "t"; Re.c "q";
          Re.Chr Re.AnyChar;
          Re.c "g"; Re.c "z"; Re.Eol] |}.

(** *** Sample discovery (lines 188-215) *)

(** The listing functions of [utilities.s3_util] that [main] calls;
    the module is not part of this file, so they are fields of a
    record the script is run against. *)
Record s3_util : Type := {
  get_files : string -> string -> list string;
  get_size : string -> string -> list (string * Z);
  get_folders : string -> string -> list string
}.

Definition is_fastq (f : string * Z) : bool := Py.endswith (fst f) "fastq.gz".

(** Lines 189-203.  In the second branch the loop variable [sample]
    is not used by the body: each round lists [s3_input_prefix]. *)
Definition list_sample_files (s3u : s3_util) (s3_input_bucket s3_input_prefix : string)
  : list (string * Z) :=
  match get_files s3u s3_input_bucket s3_input_prefix with
  | _ :: _ => filter is_fastq (get_size s3u s3_input_bucket s3_input_prefix)
  | [] =>
      let sample_folder_paths :=
        get_folders s3u s3_input_bucket (s3_input_prefix ++ "/") in
      fold_left
        (fun sample_files (sample : string) =>
           (sample_files
              ++ filter is_fastq (get_size s3u s3_input_bucket s3_input_prefix))%list)
        sample_folder_paths []
  end.

(** A [defaultdict(list)] keyed by sample name, in insertion order. *)
Definition defaultdict (V : Type) : Type := list (string * list V).

Fixpoint dd_append {V} (k : string) (v : V) (d : defaultdict V) : defaultdict V :=
  match d with
  | [] => [(k, [v])]
  | (k', vs) :: d' =>
      if String.eqb k' k then (k', (vs ++ [v])%list) :: d'
      else (k', vs) :: dd_append k v d'
  end.

Fixpoint dd_get {V} (k : string) (d : defaultdict V) : list V :=
  match d with
  | [] => []
  | (k', vs) :: d' => if String.eqb k' k then vs else dd_get k d'
  end.

Definition keys {V} (d : defaultdict V) : list string := map fst d.

Record samples : Type := {
  sample_lists : defaultdict string;
  sample_sizes : defaultdict Z
}.

(** Lines 208-215.  [matched] is a local of [main]: [None] while no
    assignment has run, otherwise the value of the last [search]. *)
Fixpoint group_files (technology : string) (matched : option (option string))
    (acc : samples) (sample_files : list (string * Z)) : result samples :=
  match sample_files with
  | [] => Ok acc
  | (fn, s) :: rest =>
      let matched :=
        if technology =? "10x"
        then Some (Re.search sample_re_10x (Py.basename fn))
        else if technology =? "smartseq2"
        then Some (Re.search sample_re_smartseq2 (Py.basename fn))
        else matched in
      match matched with
      | None => Raise (UnboundLocalError "matched")
      | Some None => group_files technology matched acc rest
      | Some (Some g) =>
          group_files technology matched
            {| sample_lists := dd_append g fn (sample_lists acc);
               sample_sizes := dd_append g s (sample_sizes acc) |}
            rest
      end
  end.

Definition discover (s3u : s3_util) (technology s3_input_bucket s3_input_prefix : string)
  : result samples :=
  group_files technology None
    {| sample_lists := []; sample_sizes := [] |}
    (list_sample_files s3u s3_input_bucket s3_input_prefix).

(** *** Selection of the samples of this shard (line 220) *)

Definition assigned (names : list string) (partition_id num_partitions : Z)
  : result (list string) :=
  Py.slice_from_step (sorted names) partition_id num_partitions.

(** *** Genome directory (lines 153-157) *)

Definition genome_dir_of (root_dir : path) (technology genome_name : string)
  : result path :=
  if Py.contains "10x" technology
  then Ok (root_dir ++ ["genome"; "10X"; genome_name])%list
  else if Py.contains "smartseq2" technology
  then Ok (root_dir ++ ["genome"; "smartseq2"; genome_name])%list
  else Raise (UnboundLocalError "genome_dir").

(** *** The local disk, the trace of calls, and the monad of [main] *)

Inductive arg : Type :=
| Str (s : string)
| PathArg (p : path).

(** What the loop does to its collaborators, newest first in a trace:
    [logger.info], the call of [log_command] on the tool's command
    with the flag it returned, [s3c.upload_file] with the exception it
    raised if any, the shell command run through
    [ut_log.log_command], and [time.sleep]. *)
Inductive event : Type :=
| Info (msg : string)
| ToolRun (command : list arg) (failed : bool)
| Upload (filename bucket key : string) (raised : option exn)
| Shell (command : list arg)
| Sleep (seconds : Z).

Record state : Type := {
  dirs : list path;
  cwd : path;
  trace : list event
}.

Definition M (A : Type) : Type := state -> result A * state.

Definition ret {A} (a : A) : M A := fun st => (Ok a, st).

Definition bind {A B} (m : M A) (k : A -> M B) : M B :=
  fun st =>
    match m st with
    | (Ok a, st') => k a st'
    | (Raise e, st') => (Raise e, st')
    end.

Definition raise {A} (e : exn) : M A := fun st => (Raise e, st).

Definition lift {A} (r : result A) : M A := fun st => (r, st).

Definition push (ev : event) (st : state) : state :=
  {| dirs := dirs st; cwd := cwd st; trace := ev :: trace st |}.

Definition emit (ev : event) : M unit := fun st => (Ok tt, push ev st).

Declare Scope run_scope.
Delimit Scope run_scope with run.
Notation "x <- m ;; k" := (bind m (fun x => k))
  (at level 61, m at next level, right associativity) : run_scope.
Notation "m ;; k" := (bind m (fun _ => k))
  (at level 61, right associativity) : run_scope.

Definition path_eq_dec : forall p q : path, {p = q} + {p <> q} :=
  list_eq_dec string_dec.

Definition exists_dir (p : path) (ds : list path) : bool :=
  if in_dec path_eq_dec p ds then true else false.

(** The path itself and its ancestors, longest last. *)
Fixpoint prefixes (p : path) : list path :=
  match p with
  | [] => []
  | x :: p' => [x] :: map (cons x) (prefixes p')
  end.

Fixpoint is_prefix (d p : path) : bool :=
  match d, p with
  | [], _ => true
  | x :: d', y :: p' => String.eqb x y && is_prefix d' p'
  | _ :: _, [] => false
  end.

(** [Path.mkdir(parents=True)], with [exist_ok] left at [False]. *)
Definition with_dir (p : path) (ds : list path) : list path :=
  (filter (fun q => negb (exists_dir q ds)) (prefixes p) ++ ds)%list.

Definition mkdir_parents (p : path) : M unit :=
  fun st =>
    if exists_dir p (dirs st) then (Raise (FileExistsError p), st)
    else
      (Ok tt,
       {| dirs := with_dir p (dirs st); cwd := cwd st; trace := trace st |}).

Definition chdir (p : path) : M unit :=
  fun st => (Ok tt, {| dirs := dirs st; cwd := p; trace := trace st |}).

(** [rm -rf d], run through [ut_log.log_command] (line 262); the call
    is taken to return. *)
Definition without_dir (d : path) (ds : list path) : list path :=
  filter (fun q => negb (is_prefix d q)) ds.

Definition rm_rf (d : path) : M unit :=
  fun st =>
    (Ok tt,
     {| dirs := without_dir d (dirs st);
        cwd := cwd st;
        trace := Shell [Str "rm"; Str "-rf"; PathArg d] :: trace st |}).

(** [str] of a path. *)
Definition path_str (p : path) : string := String.concat "/" p.

(** [p / s] of [pathlib] for a string [s] on the right.  The string is
    cut at its slashes and the empty pieces and the pieces [.] are
    dropped; when it starts with a slash the left path is dropped and
    the root, [//] for exactly two leading slashes and [/] otherwise,
    is kept on the first piece, as in the absolute paths of [path]. *)
Fixpoint split_slash (s : list ascii) : list (list ascii) :=
  match s with
  | [] => [[]]
  | a :: s' =>
      if Ascii.eqb a "/" then [] :: split_slash s'
      else
        match split_slash s' with
        | [] => [[a]]
        | piece :: pieces => (a :: piece) :: pieces
        end
  end.

Definition plain_parts (s : string) : list string :=
  filter (fun piece => negb (String.eqb piece "" || String.eqb piece "."))
         (map string_of_list_ascii (split_slash (list_ascii_of_string s))).

Definition posix_root (s : string) : string :=
  let chars := list_ascii_of_string s in
  if Py.prefixb ["/"; "/"; "/"]%char chars then "/"
  else if Py.prefixb ["/"; "/"]%char chars then "//"
  else if Py.prefixb ["/"]%char chars then "/"
  else "".

Definition path_div (p : path) (s : string) : path :=
  if String.eqb (posix_root s) "" then (p ++ plain_parts s)%list
  else
    match plain_parts s with
    | [] => [posix_root s]
    | piece :: pieces => (posix_root s ++ piece) :: pieces
    end.

(** *** The loop (lines 220-264) *)

(** The names [main] reads from the module's namespace that the module
    text never binds: [None] is an unbound name.  [log_command]
    receives the command and returns the flag [failed]. *)
Record namespace : Type := {
  log_command : option (list arg -> result bool);
  dest_dir : option path
}.

(** The namespace of the module as it is written. *)
Definition module_namespace : namespace :=
  {| log_command := None; dest_dir := None |}.

(** The locals of [main] when it reaches line 188, and the attributes
    of [args] the rest of it reads.  [min_size] is [None] when the
    namespace returned by the parser has no such attribute. *)
Record context : Type := {
  partition_id : Z;
  num_partitions : Z;
  min_size : option Z;
  run_dir : path;
  genome_dir : path;
  metadata_dir : path;
  sample_name : string;
  technology : string;
  s3_input_bucket : string;
  s3_input_prefix : string;
  s3_output_bucket : string;
  s3_output_prefix : string
}.

Section Run.

Local Open Scope run_scope.

Variable ns : namespace.
Variable s3u : s3_util.
(** [s3c.upload_file]: [None] when the call returns. *)
Variable upload_file : string -> string -> string -> option exn.
Variable ctx : context.

Definition result_path : path := (run_dir ctx ++ ["results"])%list.

Definition loom : string := sample_name ctx ++ ".loom".

Definition tool_command (sl : samples) (sample : string) : list arg :=
  ([Str "loompy"; Str "fromfq"; Str loom; Str (sample_name ctx);
    PathArg (genome_dir ctx); PathArg (metadata_dir ctx)]
     ++ map Str (dd_get sample (sample_lists sl)))%list.

Definition call_log_command (command : list arg) : M bool :=
  match log_command ns with
  | None => raise (NameError "log_command")
  | Some f =>
      failed <- lift (f command) ;;
      emit (ToolRun command failed) ;;
      ret failed
  end.

Definition call_upload_file (filename bucket key : string) : M unit :=
  emit (Upload filename bucket key (upload_file filename bucket key)) ;;
  match upload_file filename bucket key with
  | None => ret tt
  | Some e => raise e
  end.

(** Lines 229-264: what follows the size gate. *)
Definition invoke_and_publish (sl : samples) (sample : string) : M unit :=
  failed <- call_log_command (tool_command sl sample) ;;
  if (failed : bool) then raise (RuntimeError "loompy failed")
  else
    emit (Info ("Uploading " ++ loom)) ;;
    call_upload_file
      (path_str (path_div result_path loom))
      (s3_output_bucket ctx)
      (Py.path_join (s3_output_prefix ctx) loom) ;;
    match dest_dir ns with
    | None => raise (NameError "dest_dir")
    | Some d =>
        rm_rf d ;;
        emit (Sleep 30)
    end.

(** Lines 221-264: one round of the loop. *)
Definition process_sample (sl : samples) (sample : string) : M unit :=
  mkdir_parents result_path ;;
  chdir result_path ;;
  let total := Py.sum (dd_get sample (sample_sizes sl)) in
  match min_size ctx with
  | None => raise (AttributeError "min_size")
  | Some m =>
      if (total <? m)%Z
      then emit (Info (sample ++ " is below min_size, skipping"))
      else invoke_and_publish sl sample
  end.

Fixpoint for_each (body : string -> M unit) (l : list string) : M unit :=
  match l with
  | [] => ret tt
  | x :: l' => body x ;; for_each body l'
  end.

(** Lines 188-264 of [main].  The trace holds what the loop does; the
    log line of line 217, which comes before the loop, is not
    recorded. *)
Definition main_from_discovery : M unit :=
  sl <- lift (discover s3u (technology ctx)
                (s3_input_bucket ctx) (s3_input_prefix ctx)) ;;
  todo <- lift (assigned (keys (sample_lists sl))
                  (partition_id ctx) (num_partitions ctx)) ;;
  for_each (process_sample sl) todo.

End Run.

(** *** The helper behind [log_command] *)

Record tool_result : Type := {
  exit_code : Z;
  captured : string
}.

(** Modelled from the spec: the helper [log_command] of
    [utilities.log_util], which is not part of this file.  It runs the
    command, captures the combined output, and reports a failure when
    the exit code is non-zero or the captured output holds one of the
    failure markers (spec 4.4). *)
Definition classify_invocation_result (markers : list string) (r : tool_result)
  : bool :=
  negb (exit_code r =? 0)%Z
  || existsb (fun m => Py.contains m (captured r)) markers.

(** Modelled from the spec: the same helper as a function of the
    command, [tool] being the external program it runs. *)
Definition spec_log_command (tool : list arg -> tool_result)
    (markers : list string) (command : list arg) : result bool :=
  Ok (classify_invocation_result markers (tool command)).

(** *** The first lines of [main] (lines 115-176) *)

(** Lines 121-122: one slash at the end of the input path is cut. *)
Definition strip_trailing_slash (s3_input_path : string) : string :=
  if Py.endswith s3_input_path "/"
  then string_of_list_ascii (removelast (list_ascii_of_string s3_input_path))
  else s3_input_path.

Inductive lookup_error : Type :=
| IndexError.

(** Lines 140-145, on the rows [csv.reader] yields: the header row is
    dropped and the first two fields of the next row are read, the
    sample name first. *)
Definition read_metadata (rows : list (list string))
  : (string * string) + lookup_error :=
  let file_content := List.tl rows in
  match file_content with
  | [] => inr IndexError
  | row :: _ =>
      match row with
      | [] => inr IndexError
      | sample_name :: fields =>
          match fields with
          | [] => inr IndexError
          | technology :: _ => inl (sample_name, technology)
          end
      end
  end.

(** Lines 22-27. *)
Definition S3_REFERENCE_west : string := "czbiohub-reference".

Definition reference_genomes_indexes : list (string * string) :=
  [("homo", "human_GRCh38_gencode.v31")].

(** Lines 148-151. *)
Definition genome_name_of (taxon : string) : result string :=
  match find (fun kv => String.eqb (fst kv) taxon) reference_genomes_indexes with
  | Some kv => Ok (snd kv)
  | None => Raise (ValueError ("unknown taxon " ++ taxon))
  end.

(** Lines 173-176. *)
Definition s3_genome_index_of (technology genome_name : string) : result string :=
  if Py.contains "10x" technology
  then Ok (S3_REFERENCE_west ++ "/loompy/10X/" ++ genome_name)
  else if Py.contains "smartseq2" technology
  then Ok (S3_REFERENCE_west ++ "/loompy/10X/" ++ genome_name)
  else Raise (UnboundLocalError "s3_genome_index").

(** Lines 51-100: the destinations of the options [get_parser]
    declares, with their [required] flag.  These are the attributes of
    the namespace [parse_args] returns. *)
Definition get_parser : list (string * bool) :=
  [("taxon", true); ("metadata", true); ("s3_input_path", true);
   ("s3_output_path", true); ("num_partitions", true); ("partition_id", true);
   ("cell_count", false); ("dobby", false); ("glacier", false);
   ("root_dir", false)].

(** ** Vocabulary of the statements *)

(** A lane marker: [_L] followed by a digit. *)
Fixpoint has_lane_marker (s : list ascii) : bool :=
  match s with
  | [] => false
  | a :: s' =>
      (Ascii.eqb a "_"
       && match s' with
          | b :: d :: _ => Ascii.eqb b "L" && Re.is_digit d
          | _ => false
          end)
      || has_lane_marker s'
  end.

Definition no_samples : samples := {| sample_lists := []; sample_sizes := [] |}.

(** A flat listing of the given objects. *)
Definition flat_store (objects : list (string * Z)) : s3_util :=
  {| get_files := fun _ _ => map fst objects;
     get_size := fun _ _ => objects;
     get_folders := fun _ _ => [] |}.

(** A store with nothing directly under its prefixes and one listing
    per sub-folder. *)
Definition nested_store (folders : list (string * list (string * Z))) : s3_util :=
  {| get_files := fun _ prefix =>
       map fst (List.concat (map snd (filter (fun f => String.eqb (fst f) prefix) folders)));
     get_size := fun _ prefix =>
       List.concat (map snd (filter (fun f => String.eqb (fst f) prefix) folders));
     get_folders := fun _ _ => map fst folders |}.

Definition two_folders : list (string * list (string * Z)) :=
  [("in/f1/", [("in/f1/sA_L1_R1.fastq.gz", 10%Z); ("in/f1/sA_L1_R2.fastq.gz", 11%Z)]);
   ("in/f2/", [("in/f2/sB_L2_R1_1.fastq.gz", 12%Z)])].

(** The tool calls and the uploads of a trace. *)
Definition is_tool_run (ev : event) : bool :=
  match ev with ToolRun _ _ => true | _ => false end.

Definition is_upload (ev : event) : bool :=
  match ev with Upload _ _ _ _ => true | _ => false end.

(** The state of a round once the results directory is made and
    entered. *)
Definition entered (p : path) (st : state) : state :=
  {| dirs := with_dir p (dirs st); cwd := p; trace := trace st |}.

(** Every shell command of the trace (the only one is the removal)
    comes right after an upload that returned. *)
Fixpoint removal_guarded (t : list event) : bool :=
  match t with
  | [] => true
  | Shell _ :: rest =>
      match rest with
      | Upload _ _ _ None :: _ => removal_guarded rest
      | _ => false
      end
  | _ :: rest => removal_guarded rest
  end.

(** Some upload of the trace raised. *)
Definition upload_raised (t : list event) : bool :=
  existsb (fun ev => match ev with
                     | Upload _ _ _ (Some _) => true
                     | _ => false
                     end) t.

(** The positions [i], [i + n], [i + 2n], ... below [len]. *)
Definition stride (len i n : nat) : list nat :=
  map (fun k => i + k * n)%nat
      (seq 0 (if (i <? len)%nat then (len - i - 1) / n + 1 else 0)%nat).

(** *** A small run, for the examples *)

(** Two samples found under the 10x technology, the sample name [m]
    read from the metadata file, and a disk that holds the run
    directory only. *)
Definition demo_files : list (string * Z) :=
  [("in/sA_L1_R1.fastq.gz", 5%Z); ("in/sA_L1_R2.fastq.gz", 6%Z);
   ("in/sB_L2_R1_1.fastq.gz", 7%Z)].

Definition demo_samples : samples :=
  {| sample_lists :=
       [("sA", ["in/sA_L1_R1.fastq.gz"; "in/sA_L1_R2.fastq.gz"]);
        ("sB", ["in/sB_L2_R1_1.fastq.gz"])];
     sample_sizes := [("sA", [5%Z; 6%Z]); ("sB", [7%Z])] |}.

Definition demo_ctx (threshold : option Z) : context :=
  {| partition_id := 0;
     num_partitions := 1;
     min_size := threshold;
     run_dir := ["/mnt"; "data"];
     genome_dir := ["/mnt"; "genome"; "10X"; "human_GRCh38_gencode.v31"];
     metadata_dir := ["/mnt"; "data"; "metadata"; "meta.tsv"];
     sample_name := "m";
     technology := "10x";
     s3_input_bucket := "bucket";
     s3_input_prefix := "in";
     s3_output_bucket := "results-bucket";
     s3_output_prefix := "out" |}.

Definition demo_state : state :=
  {| dirs := [["/mnt"]; ["/mnt"; "data"]]; cwd := ["/mnt"]; trace := [] |}.

(** A namespace in which [log_command] is bound to a helper that
    answers [failed] whatever the command. *)
Definition stub_namespace (failed : bool) (d : option path) : namespace :=
  {| log_command := Some (fun _ => Ok failed); dest_dir := d |}.

Definition uploads_ok : string -> string -> string -> option exn :=
  fun _ _ _ => None.

Definition uploads_fail : string -> string -> string -> option exn :=
  fun _ _ _ => Some (Collaborator "s3c.upload_file").

(** The base name of [fn] matches the pattern of the technology. *)
Definition matched_name (technology fn : string) : option string :=
  if technology =? "10x" then Re.search sample_re_10x (Py.basename fn)
  else if technology =? "smartseq2"
  then Re.search sample_re_smartseq2 (Py.basename fn)
  else None.

Definition is_matched (technology : string) (f : string * Z) : bool :=
  match matched_name technology (fst f) with
  | Some _ => true
  | None => false
  end.

(** All the values of a dictionary, key after key. *)
Definition all_values {V} (d : defaultdict V) : list V := List.concat (map snd d).

Definition is_info (ev : event) : bool :=
  match ev with Info _ => true | _ => false end.

(** Every upload of the trace comes right after its log line, which
    comes right after a tool call that did not fail. *)
Fixpoint upload_guarded (t : list event) : bool :=
  match t with
  | [] => true
  | Upload _ _ _ _ :: rest =>
      match rest with
      | Info _ :: ToolRun _ false :: _ => upload_guarded rest
      | _ => false
      end
  | _ :: rest => upload_guarded rest
  end.

(** The two dictionaries of the discovery go together. *)
Definition parallel (sl : samples) : Prop :=
  keys (sample_lists sl) = keys (sample_sizes sl)
  /\ (forall k, List.length (dd_get k (sample_lists sl))
                = List.length (dd_get k (sample_sizes sl)))
  /\ NoDup (keys (sample_lists sl))
  /\ Forall (fun kv => snd kv <> []) (sample_lists sl).

(* ================================================================== *)
(** * Properties *)

(** ** Filename patterns *)

Section Patterns.

Local Open Scope list_scope.
Local Open Scope char_scope.

Lemma run_cat_lit (a : ascii) (r : Re.regex) (s : list ascii) :
  Re.run (Re.Cat (Re.c a) r) s =
  match s with
  | b :: s' => if Ascii.eqb a b then Re.run r s' else []
  | [] => []
  end.
Proof.
  destruct s as [|b s']; simpl; [reflexivity|].
  destruct (Ascii.eqb a b); simpl; [apply app_nil_r | reflexivity].
Qed.

Lemma plus_run_suffix (c : Re.cclass) (s s1 : list ascii) :
  In s1 (Re.plus_run c s) -> exists w, s = w ++ s1.
Proof.
  induction s as [|a s IH]; simpl; [tauto|].
  destruct (Re.cmatch c a); [|simpl; tauto].
  intros H. apply in_app_or in H. destruct H as [H|[H|[]]].
  - destruct (IH H) as [w ->]. now exists (a :: w).
  - subst. now exists [a].
Qed.

Lemma plus_run_head (c : Re.cclass) (s : list ascii) :
  Re.plus_run c s <> [] ->
  exists d rest, s = d :: rest /\ Re.cmatch c d = true.
Proof.
  destruct s as [|d rest]; simpl; [congruence|].
  destruct (Re.cmatch c d) eqn:E; [|congruence].
  intros _. now exists d, rest.
Qed.

Lemma flat_map_nonempty {A B} (f : A -> list B) (l : list A) :
  flat_map f l <> [] -> l <> [].
Proof. destruct l; simpl; congruence. Qed.

(** What the 10x pattern asks of the text that follows the group. *)
Lemma tail_10x_head (s1 : list ascii) :
  Re.run (Re.tail sample_re_10x) s1 <> [] ->
  exists d rest, s1 = "_" :: "L" :: d :: rest /\ Re.is_digit d = true.
Proof.
  cbn [Re.tail sample_re_10x Re.cat_all].
  rewrite run_cat_lit.
  destruct s1 as [|a s2]; [congruence|].
  destruct (Ascii.eqb "_" a) eqn:Ea; [|congruence].
  apply Ascii.eqb_eq in Ea. subst a.
  rewrite run_cat_lit.
  destruct s2 as [|b s3]; [congruence|].
  destruct (Ascii.eqb "L" b) eqn:Eb; [|congruence].
  apply Ascii.eqb_eq in Eb. subst b.
  cbn [Re.run]. intros H.
  apply flat_map_nonempty, plus_run_head in H.
  destruct H as (d & rest & -> & Hd).
  now exists d, rest.
Qed.

Lemma has_lane_marker_app (pre post : list ascii) (d : ascii) :
  Re.is_digit d = true ->
  has_lane_marker (pre ++ "_" :: "L" :: d :: post) = true.
Proof.
  intros Hd. induction pre as [|a pre IH].
  - simpl. now rewrite Hd.
  - change ((a :: pre) ++ "_" :: "L" :: d :: post)
      with (a :: (pre ++ "_" :: "L" :: d :: post)).
    cbn [has_lane_marker]. rewrite IH. apply orb_true_r.
Qed.

Lemma match_here_10x_lane (s g : list ascii) :
  In g (Re.match_here sample_re_10x s) -> has_lane_marker s = true.
Proof.
  unfold Re.match_here. intros H.
  apply in_flat_map in H. destruct H as (s1 & Hs1 & Hg).
  assert (Ht : Re.run (Re.tail sample_re_10x) s1 <> []).
  { intros E. rewrite E in Hg. exact Hg. }
  apply tail_10x_head in Ht. destruct Ht as (d & rest & -> & Hd).
  apply plus_run_suffix in Hs1. destruct Hs1 as [w ->].
  now apply has_lane_marker_app.
Qed.

Lemma search_10x_lane (s g : list ascii) :
  Re.search_chars sample_re_10x s = Some g -> has_lane_marker s = true.
Proof.
  induction s as [|a s IH]; cbn [Re.search_chars].
  - destruct (Re.match_here sample_re_10x []) eqn:E; [discriminate|].
    intros _. apply (match_here_10x_lane [] l). rewrite E. now left.
  - destruct (Re.match_here sample_re_10x (a :: s)) eqn:E.
    + intros H. cbn [has_lane_marker]. rewrite (IH H). apply orb_true_r.
    + intros _. apply (match_here_10x_lane _ l). rewrite E. now left.
Qed.

Lemma search_10x_none (s : string) :
  has_lane_marker (list_ascii_of_string s) = false ->
  Re.search sample_re_10x s = None.
Proof.
  intros H. unfold Re.search.
  destruct (Re.search_chars sample_re_10x (list_ascii_of_string s)) eqn:E;
    [|reflexivity].
  apply search_10x_lane in E. congruence.
Qed.

End Patterns.

(** ** Discovery *)

Lemma group_files_10x_step (matched : option (option string)) (acc : samples)
    (fn : string) (s : Z) (rest : list (string * Z)) :
  group_files "10x" matched acc ((fn, s) :: rest) =
  match Re.search sample_re_10x (Py.basename fn) with
  | None => group_files "10x" (Some None) acc rest
  | Some g =>
      group_files "10x" (Some (Some g))
        {| sample_lists := dd_append g fn (sample_lists acc);
           sample_sizes := dd_append g s (sample_sizes acc) |} rest
  end.
Proof.
  cbn [group_files]. change ("10x" =? "10x") with true. cbv iota.
  destruct (Re.search sample_re_10x (Py.basename fn)); reflexivity.
Qed.

Lemma group_files_10x_matched (m m' : option (option string)) (acc : samples)
    (files : list (string * Z)) :
  group_files "10x" m acc files = group_files "10x" m' acc files.
Proof.
  destruct files as [|[fn s] rest]; [reflexivity|].
  now rewrite !group_files_10x_step.
Qed.

(** C7.  Under the 10x technology the three files sA_L1_R1.fastq.gz,
    sA_L1_R2.fastq.gz and sB_L2_R1_1.fastq.gz are grouped into the
    samples sA (two files) and sB (one file), each under the part of
    its name before the lane and read markers; and a file whose base
    name has no lane marker is left out of every sample, without an
    error: the grouping goes on as if the file were not listed. *)
Theorem discovery_10x_grouping :
  (forall (z1 z2 z3 : Z) (bucket prefix : string),
      discover
        (flat_store [("sA_L1_R1.fastq.gz", z1); ("sA_L1_R2.fastq.gz", z2);
                     ("sB_L2_R1_1.fastq.gz", z3)])
        "10x" bucket prefix
      = Ok {| sample_lists :=
                [("sA", ["sA_L1_R1.fastq.gz"; "sA_L1_R2.fastq.gz"]);
                 ("sB", ["sB_L2_R1_1.fastq.gz"])];
              sample_sizes := [("sA", [z1; z2]); ("sB", [z3])] |})
  /\
  (forall (fn : string) (s : Z) (matched : option (option string))
          (acc : samples) (rest : list (string * Z)),
      has_lane_marker (list_ascii_of_string (Py.basename fn)) = false ->
      group_files "10x" matched acc ((fn, s) :: rest)
      = group_files "10x" matched acc rest).
Proof.
  split.
  - intros. reflexivity.
  - intros fn s matched acc rest H.
    rewrite group_files_10x_step, (search_10x_none _ H).
    apply group_files_10x_matched.
Qed.

Lemma discovery_10x_grouping_witness :
  has_lane_marker (list_ascii_of_string (Py.basename "in/sC_R1.fastq.gz")) = false
  /\ group_files "10x" None no_samples
       [("in/sC_R1.fastq.gz", 1%Z); ("in/sA_L1_R1.fastq.gz", 2%Z)]
     = Ok {| sample_lists := [("sA", ["in/sA_L1_R1.fastq.gz"])];
             sample_sizes := [("sA", [2%Z])] |}.
Proof.
  split; [reflexivity|].
  rewrite (proj2 discovery_10x_grouping "in/sC_R1.fastq.gz" 1%Z None no_samples
             [("in/sA_L1_R1.fastq.gz", 2%Z)] eq_refl).
  reflexivity.
Defined.

Lemma group_files_unbound (technology : string) (acc : samples)
    (f : string * Z) (rest : list (string * Z)) :
  technology <> "10x" -> technology <> "smartseq2" ->
  group_files technology None acc (f :: rest) = Raise (UnboundLocalError "matched").
Proof.
  intros H1 H2. destruct f as [fn s]. cbn [group_files].
  apply String.eqb_neq in H1, H2. now rewrite H1, H2.
Qed.

(** C10.  For a technology label that is neither '10x' nor
    'smartseq2', the grouping step stops at the first candidate file
    with an unbound-variable error on [matched], since neither branch
    assigns it; with no candidate file there is no error and no sample
    is discovered. *)
Theorem unknown_technology_unbound_matched (technology : string)
    (H10x : technology <> "10x") (Hss2 : technology <> "smartseq2") :
  (forall (acc : samples) (f : string * Z) (rest : list (string * Z)),
      group_files technology None acc (f :: rest)
      = Raise (UnboundLocalError "matched"))
  /\
  (forall (s3u : s3_util) (bucket prefix : string),
      discover s3u technology bucket prefix =
      match list_sample_files s3u bucket prefix with
      | [] => Ok no_samples
      | _ :: _ => Raise (UnboundLocalError "matched")
      end).
Proof.
  split.
  - intros. now apply group_files_unbound.
  - intros. unfold discover.
    destruct (list_sample_files s3u bucket prefix) as [|f rest].
    + reflexivity.
    + now apply group_files_unbound.
Qed.

Lemma unknown_technology_unbound_matched_witness :
  Py.contains "10x" "10xv2" = true
  /\ group_files "10xv2" None no_samples [("sA_L1_R1.fastq.gz", 5%Z)]
     = Raise (UnboundLocalError "matched")
  /\ discover (flat_store []) "10xv2" "bucket" "in" = Ok no_samples.
Proof.
  assert (H1 : "10xv2" <> "10x") by discriminate.
  assert (H2 : "10xv2" <> "smartseq2") by discriminate.
  split; [reflexivity|]. split.
  - apply (proj1 (unknown_technology_unbound_matched "10xv2" H1 H2)).
  - apply (proj2 (unknown_technology_unbound_matched "10xv2" H1 H2)
             (flat_store []) "bucket" "in").
Defined.

(** A label that holds '10x' inside a longer word gets its genome
    directory at line 154, so such a run does reach the grouping step;
    a label that holds neither word stops at line 157. *)
Lemma genome_dir_of_10xv2 (root_dir : path) (genome_name : string) :
  genome_dir_of root_dir "10xv2" genome_name
  = Ok (root_dir ++ ["genome"; "10X"; genome_name])%list.
Proof. reflexivity. Qed.

Lemma genome_dir_of_unbound (root_dir : path) (technology genome_name : string) :
  Py.contains "10x" technology = false ->
  Py.contains "smartseq2" technology = false ->
  genome_dir_of root_dir technology genome_name
  = Raise (UnboundLocalError "genome_dir").
Proof. intros H1 H2. unfold genome_dir_of. now rewrite H1, H2. Qed.

Lemma fold_left_same_listing {A B} (x : list A) (folders : list B) (acc : list A) :
  fold_left (fun files (_ : B) => (files ++ x)%list) folders acc
  = (acc ++ List.concat (map (fun _ => x) folders))%list.
Proof.
  revert acc. induction folders as [|f folders IH]; intros acc; simpl.
  - now rewrite app_nil_r.
  - now rewrite IH, app_assoc.
Qed.

(** Whatever the sub-folders hold, the second branch of the listing
    reads the input prefix once per sub-folder. *)
Lemma list_sample_files_fallback (s3u : s3_util) (bucket prefix : string) :
  get_files s3u bucket prefix = [] ->
  list_sample_files s3u bucket prefix
  = List.concat
      (map (fun _ => filter is_fastq (get_size s3u bucket prefix))
           (get_folders s3u bucket (prefix ++ "/"))).
Proof.
  intros H. unfold list_sample_files. rewrite H.
  cbv zeta. now rewrite fold_left_same_listing.
Qed.

(** C5.  With nothing directly under the prefix and two sub-folders
    that hold the files of sA and of sB, discovery returns no sample
    at all, although each sub-folder listed on its own yields its
    sample. *)
Theorem fallback_listing_finds_nothing :
  get_files (nested_store two_folders) "bucket" "in" = []
  /\ get_folders (nested_store two_folders) "bucket" "in/" = ["in/f1/"; "in/f2/"]
  /\ discover (nested_store two_folders) "10x" "bucket" "in/f1/"
     = Ok {| sample_lists :=
               [("sA", ["in/f1/sA_L1_R1.fastq.gz"; "in/f1/sA_L1_R2.fastq.gz"])];
             sample_sizes := [("sA", [10%Z; 11%Z])] |}
  /\ discover (nested_store two_folders) "10x" "bucket" "in/f2/"
     = Ok {| sample_lists := [("sB", ["in/f2/sB_L2_R1_1.fastq.gz"])];
             sample_sizes := [("sB", [12%Z])] |}
  /\ discover (nested_store two_folders) "10x" "bucket" "in" = Ok no_samples.
Proof. repeat split; reflexivity. Qed.

(** ** Selection of the shard *)

Section Slicing.

Local Open Scope list_scope.
Local Open Scope nat_scope.

Lemma slice_positions_stride (len i n : nat) :
  1 <= n ->
  Py.slice_positions (Z.of_nat len) (Z.of_nat i) (Z.of_nat n) = stride len i n.
Proof.
  intros Hn. unfold Py.slice_positions, stride, Py.slice_start, Py.slice_stop,
    Py.slice_length.
  destruct (Z.ltb_spec (Z.of_nat i) 0); [lia|].
  destruct (Z.ltb_spec (Z.of_nat n) 0); [lia|].
  destruct (Z.leb_spec (Z.of_nat len) (Z.of_nat i)) as [Hle|Hlt].
  - destruct (Nat.ltb_spec i len); [lia|].
    destruct (Z.ltb_spec (Z.of_nat len) (Z.of_nat len)); [lia|]. reflexivity.
  - destruct (Nat.ltb_spec i len); [|lia].
    destruct (Z.ltb_spec (Z.of_nat i) (Z.of_nat len)); [|lia].
    replace (Z.to_nat ((Z.of_nat len - Z.of_nat i - 1) / Z.of_nat n + 1))
      with ((len - i - 1) / n + 1).
    + apply map_ext. intros k. lia.
    + replace (Z.of_nat len - Z.of_nat i - 1)%Z with (Z.of_nat (len - i - 1)) by lia.
      rewrite <- Nat2Z.inj_div. lia.
Qed.

Lemma in_stride (len i n p : nat) :
  i < n ->
  In p (stride len i n) <-> p < len /\ p mod n = i.
Proof.
  intros Hi. unfold stride. rewrite in_map_iff. split.
  - intros (k & <- & Hk). apply in_seq in Hk.
    destruct (Nat.ltb_spec i len) as [Hlt|]; [|lia].
    assert (Hkn : k * n <= len - i - 1).
    { assert (k <= (len - i - 1) / n) by lia.
      pose proof (Nat.Div0.mul_div_le (len - i - 1) n). nia. }
    split; [lia|].
    rewrite Nat.Div0.mod_add. now apply Nat.mod_small.
  - intros [Hp Hmod]. exists (p / n).
    pose proof (Nat.div_mod_eq p n) as E. rewrite Hmod in E.
    split; [lia|]. apply in_seq.
    destruct (Nat.ltb_spec i len) as [Hlt|]; [|lia].
    assert (p / n <= (len - i - 1) / n); [|lia].
    replace (p / n) with ((p / n * n) / n) at 1 by (apply Nat.div_mul; lia).
    apply Nat.Div0.div_le_mono. lia.
Qed.


Lemma nth_error_stride (len i n j : nat) :
  1 <= n -> i + j * n < len ->
  nth_error (stride len i n) j = Some (i + j * n).
Proof.
  intros Hn Hj. unfold stride.
  destruct (Nat.ltb_spec i len) as [Hlt|]; [|lia].
  rewrite nth_error_map, nth_error_seq.
  assert (Hle : j <= (len - i - 1) / n).
  { replace j with ((j * n) / n) at 1 by (apply Nat.div_mul; lia).
    apply Nat.Div0.div_le_mono. lia. }
  destruct (Nat.ltb_spec j ((len - i - 1) / n + 1)); [reflexivity | lia].
Qed.

Lemma NoDup_stride (len i n : nat) : 1 <= n -> NoDup (stride len i n).
Proof.
  intros Hn. unfold stride.
  apply Injective_map_NoDup_in; [|apply seq_NoDup].
  intros x y _ _ E. nia.
Qed.

Lemma NoDup_flat_map_disjoint {A B} (f : A -> list B) (l : list A) :
  NoDup l ->
  (forall x, In x l -> NoDup (f x)) ->
  (forall x y b, In x l -> In y l -> In b (f x) -> In b (f y) -> x = y) ->
  NoDup (flat_map f l).
Proof.
  induction l as [|a l IH]; intros Hl Hf Hd; simpl; [constructor|].
  inversion Hl as [|? ? Ha Hl']; subst.
  apply NoDup_app.
  - apply Hf. now left.
  - apply IH; auto.
    + intros x Hx. apply Hf. now right.
    + intros x y b Hx Hy. apply Hd; now right.
  - intros b Hb Hb'. apply in_flat_map in Hb'. destruct Hb' as (y & Hy & Hby).
    assert (a = y) by (apply (Hd a y b); auto; [now left | now right]).
    subst. contradiction.
Qed.

(** The strides of the [n] shards cover the positions below [len],
    each once. *)
Lemma strides_cover (len n : nat) :
  1 <= n ->
  Permutation (flat_map (fun i => stride len i n) (seq 0 n)) (seq 0 len).
Proof.
  intros Hn. apply NoDup_Permutation.
  - apply NoDup_flat_map_disjoint.
    + apply seq_NoDup.
    + intros. now apply NoDup_stride.
    + intros x y b Hx Hy Hbx Hby. apply in_seq in Hx, Hy.
      apply in_stride in Hbx, Hby; lia.
  - apply seq_NoDup.
  - intros p. rewrite in_flat_map, in_seq. split.
    + intros (i & Hi & Hp). apply in_seq in Hi. apply in_stride in Hp; lia.
    + intros Hp. exists (p mod n).
      assert (p mod n < n) by (apply Nat.mod_upper_bound; lia).
      split; [apply in_seq; lia|]. apply in_stride; lia.
Qed.

Lemma pick_shift {A} (a : A) (l : list A) (ps : list nat) :
  Py.pick (a :: l) (map S ps) = Py.pick l ps.
Proof.
  unfold Py.pick. induction ps as [|p ps IH]; simpl; [reflexivity|].
  now rewrite IH.
Qed.

Lemma pick_all {A} (l : list A) : Py.pick l (seq 0 (List.length l)) = l.
Proof.
  induction l as [|a l IH]; [reflexivity|].
  cbn [List.length seq]. rewrite <- seq_shift.
  change (Py.pick (a :: l) (0 :: map S (seq 0 (List.length l))))
    with (a :: Py.pick (a :: l) (map S (seq 0 (List.length l)))).
  now rewrite pick_shift, IH.
Qed.

Lemma pick_flat_map {A B} (l : list A) (f : B -> list nat) (xs : list B) :
  Py.pick l (flat_map f xs) = flat_map (fun x => Py.pick l (f x)) xs.
Proof.
  unfold Py.pick. induction xs as [|x xs IH]; simpl; [reflexivity|].
  now rewrite flat_map_app, IH.
Qed.

Lemma in_pick {A} (l : list A) (ps : list nat) (x : A) :
  In x (Py.pick l ps) <-> exists p, In p ps /\ nth_error l p = Some x.
Proof.
  unfold Py.pick. rewrite in_flat_map. split.
  - intros (p & Hp & Hx). exists p. split; [assumption|].
    destruct (nth_error l p); [|contradiction].
    destruct Hx as [->|[]]. reflexivity.
  - intros (p & Hp & E). exists p. split; [assumption|].
    rewrite E. now left.
Qed.

Lemma nth_error_pick {A} (l : list A) (ps : list nat) (j p : nat) :
  Forall (fun q => q < List.length l) ps ->
  nth_error ps j = Some p ->
  nth_error (Py.pick l ps) j = nth_error l p.
Proof.
  intros Hps. revert j. induction Hps as [|q ps Hq Hps IH]; intros j Hj.
  - destruct j; discriminate.
  - apply nth_error_Some in Hq.
    unfold Py.pick in *. cbn [flat_map].
    destruct (nth_error l q) as [x|] eqn:E; [|congruence].
    destruct j as [|j]; cbn in Hj |- *.
    + now inversion Hj; subst.
    + now apply IH.
Qed.


Lemma nth_map_seq {A} (f : nat -> A) (n i : nat) (d : A) :
  i < n -> nth i (map f (seq 0 n)) d = f i.
Proof.
  intros Hi. apply nth_error_nth.
  rewrite nth_error_map, nth_error_seq.
  destruct (Nat.ltb_spec i n); [reflexivity | lia].
Qed.

Lemma stride_in_range (len i n : nat) :
  i < n -> Forall (fun p => p < len) (stride len i n).
Proof.
  intros Hi. apply Forall_forall. intros p Hp.
  now apply in_stride in Hp.
Qed.

Lemma assigned_stride (names : list string) (i n : nat) :
  1 <= n ->
  assigned names (Z.of_nat i) (Z.of_nat n)
  = Ok (Py.pick (sorted names) (stride (List.length (sorted names)) i n)).
Proof.
  intros Hn. unfold assigned, Py.slice_from_step.
  destruct (Z.eqb_spec (Z.of_nat n) 0); [lia|].
  now rewrite slice_positions_stride.
Qed.

Lemma sorted_perm (names : list string) : Permutation (sorted names) names.
Proof. symmetry. apply StringSort.Permuted_sort. Qed.

(** C1.  For a shard count [n >= 1], the selections of the shards
    [0 .. n-1] split the sample names: put one after the other they are
    a rearrangement of the names (every name as often as it is listed,
    so nothing is lost and nothing is taken twice), the name at sorted
    position [k] is entry [k / n] of shard [k mod n], and when the
    names are distinct, as the keys of a dictionary are, no name is in
    two shards. *)
Theorem partition_complete_disjoint (names : list string) (n : Z)
    (Hn : (1 <= n)%Z) :
  exists parts : list (list string),
    List.length parts = Z.to_nat n
    /\ (forall i : nat, i < Z.to_nat n ->
          assigned names (Z.of_nat i) n = Ok (nth i parts []))
    /\ Permutation (List.concat parts) names
    /\ (forall (k : nat) (x : string),
          nth_error (sorted names) k = Some x ->
          nth_error (nth (k mod Z.to_nat n) parts []) (k / Z.to_nat n) = Some x)
    /\ (NoDup names ->
        forall (i j : nat) (x : string),
          i <> j -> In x (nth i parts []) -> In x (nth j parts []) -> False).
Proof.
  set (N := Z.to_nat n). set (l := sorted names). set (len := List.length l).
  assert (HN : 1 <= N) by lia.
  assert (En : n = Z.of_nat N) by lia.
  exists (map (fun i => Py.pick l (stride len i N)) (seq 0 N)).
  split; [|split; [|split; [|split]]].
  - now rewrite length_map, length_seq.
  - intros i Hi. rewrite nth_map_seq by assumption.
    rewrite En. now apply assigned_stride.
  - rewrite <- flat_map_concat_map, <- pick_flat_map.
    transitivity (Py.pick l (seq 0 len)).
    + unfold Py.pick. apply Permutation_flat_map. now apply strides_cover.
    + unfold len. rewrite pick_all. apply sorted_perm.
  - intros k x Hk.
    assert (Hlt : k < len) by (apply nth_error_Some; congruence).
    assert (Hm : k mod N < N) by (apply Nat.mod_upper_bound; lia).
    pose proof (Nat.div_mod_eq k N) as Ek.
    rewrite nth_map_seq by assumption.
    rewrite (nth_error_pick l _ _ k); [assumption | now apply stride_in_range |].
    rewrite nth_error_stride by lia. f_equal. lia.
  - intros Hnd i j x Hij Hi Hj.
    assert (Hl : NoDup l)
      by (apply (Permutation_NoDup (l := names)); [symmetry; apply sorted_perm | assumption]).
    destruct (Nat.lt_ge_cases i N) as [HiN|HiN];
      [|rewrite nth_overflow in Hi by (rewrite length_map, length_seq; lia);
        contradiction].
    destruct (Nat.lt_ge_cases j N) as [HjN|HjN];
      [|rewrite nth_overflow in Hj by (rewrite length_map, length_seq; lia);
        contradiction].
    rewrite nth_map_seq in Hi, Hj by assumption.
    apply in_pick in Hi, Hj.
    destruct Hi as (p & Hp & Ep), Hj as (q & Hq & Eq).
    apply in_stride in Hp, Hq; try assumption.
    assert (E : p = q)
      by (apply (proj1 (NoDup_nth_error l) Hl); [apply Hp | congruence]).
    subst q. destruct Hp as [_ Hp], Hq as [_ Hq]. congruence.
Qed.

Lemma partition_complete_disjoint_witness :
  exists parts : list (list string),
    List.length parts = 2
    /\ (forall i : nat, i < 2 ->
          assigned ["d"; "b"; "a"; "c"]%string (Z.of_nat i) 2 = Ok (nth i parts []))
    /\ Permutation (List.concat parts) ["d"; "b"; "a"; "c"]%string.
Proof.
  destruct (partition_complete_disjoint ["d"; "b"; "a"; "c"]%string 2 ltac:(lia))
    as (parts & H1 & H2 & H3 & _).
  exists parts. auto.
Defined.

End Slicing.

(** C8, as the code has it.  The selector has no check of its own on
    the shard index and the shard count.  With a count of 0 the slice
    raises its own error, for every index, and the run stops before
    any round of the loop; with any other count a selection is
    returned: for [n >= 1] and [i >= n] it is the sub-sequence at the
    positions [i], [i + n], ... of the sorted names, empty once [i]
    is past the last name. *)
Theorem partition_parameters_unchecked (names : list string) (i n : Z) :
  (n = 0%Z ->
   assigned names i n = Raise (ValueError "slice step cannot be zero")
   /\ forall ns s3u upload_file ctx st sl,
        num_partitions ctx = n ->
        discover s3u (technology ctx) (s3_input_bucket ctx) (s3_input_prefix ctx)
        = Ok sl ->
        main_from_discovery ns s3u upload_file ctx st
        = (Raise (ValueError "slice step cannot be zero"), st))
  /\ (n <> 0%Z -> exists l, assigned names i n = Ok l)
  /\ ((1 <= n)%Z -> (n <= i)%Z ->
      assigned names i n
      = Ok (Py.pick (sorted names)
              (stride (List.length (sorted names)) (Z.to_nat i) (Z.to_nat n)))).
Proof.
  split; [|split].
  - intros ->. split; [reflexivity|].
    intros ns s3u upload_file ctx st sl Hn Hd.
    unfold main_from_discovery, bind, lift. rewrite Hd.
    unfold assigned, Py.slice_from_step. now rewrite Hn.
  - intros Hn. unfold assigned, Py.slice_from_step.
    destruct (Z.eqb_spec n 0); [contradiction|]. eauto.
  - intros Hn Hi.
    rewrite <- (Z2Nat.id i), <- (Z2Nat.id n) at 1 by lia.
    apply assigned_stride. lia.
Qed.

Lemma partition_parameters_unchecked_witness :
  assigned ["a"; "b"; "c"] 3 0 = Raise (ValueError "slice step cannot be zero")
  /\ assigned ["c"; "a"; "b"] 2 2 = Ok ["c"]
  /\ assigned ["c"; "a"; "b"] 7 2 = Ok [].
Proof.
  split; [|split].
  - apply (proj1 (partition_parameters_unchecked ["a"; "b"; "c"] 3 0)).
    reflexivity.
  - rewrite (proj2 (proj2 (partition_parameters_unchecked ["c"; "a"; "b"] 2 2)));
      [reflexivity | lia | lia].
  - rewrite (proj2 (proj2 (partition_parameters_unchecked ["c"; "a"; "b"] 7 2)));
      [reflexivity | lia | lia].
Defined.

(** The claim C8 fails: an index that is not below the count, or a
    negative count, gives a selection and no error. *)
Lemma invalid_partition_not_rejected :
  assigned ["a"; "b"; "c"] 2 2 = Ok ["c"]
  /\ assigned ["a"; "b"; "c"] 5 2 = Ok []
  /\ assigned ["a"; "b"; "c"] 0 (-1) = Ok ["a"].
Proof. repeat split; reflexivity. Qed.

(** ** The loop *)

Section Loop.

Variable ns : namespace.
Variable upload_file : string -> string -> string -> option exn.
Variable ctx : context.
Variable sl : samples.

Lemma round_exists (sample : string) (st : state) :
  exists_dir (result_path ctx) (dirs st) = true ->
  process_sample ns upload_file ctx sl sample st = (Raise (FileExistsError (result_path ctx)), st).
Proof.
  intros H. unfold process_sample, bind, mkdir_parents. now rewrite H.
Qed.

Lemma round_enter (sample : string) (st : state) :
  exists_dir (result_path ctx) (dirs st) = false ->
  process_sample ns upload_file ctx sl sample st =
  match min_size ctx with
  | None => (Raise (AttributeError "min_size"), entered (result_path ctx) st)
  | Some m =>
      if (Py.sum (dd_get sample (sample_sizes sl)) <? m)%Z
      then (Ok tt, push (Info (sample ++ " is below min_size, skipping"))
                        (entered (result_path ctx) st))
      else invoke_and_publish ns upload_file ctx sl sample (entered (result_path ctx) st)
  end.
Proof.
  intros H. unfold process_sample, bind, mkdir_parents, chdir. rewrite H.
  cbn [dirs cwd trace]. fold (entered (result_path ctx) st).
  destruct (min_size ctx) as [m|]; [|reflexivity].
  destruct (Py.sum (dd_get sample (sample_sizes sl)) <? m)%Z; reflexivity.
Qed.

(** The rounds that end well leave a trace whose newest event is the
    pause; the skipped ones end on the message of the gate. *)
Lemma publish_ok_trace (sample : string) (st st' : state) :
  invoke_and_publish ns upload_file ctx sl sample st = (Ok tt, st') ->
  exists t, trace st' = Sleep 30 :: t.
Proof.
  unfold invoke_and_publish, call_log_command, call_upload_file, bind, lift,
    emit, ret, raise, rm_rf.
  destruct (log_command ns) as [f|]; [|discriminate].
  destruct (f (tool_command ctx sl sample)) as [[|]|e]; try discriminate.
  cbn. destruct (upload_file _ _ _); [discriminate|].
  destruct (dest_dir ns); [|discriminate].
  cbn. intros H. inversion H. cbn. eauto.
Qed.

(** C6.  In a round that reaches the size gate (the results directory
    could be made, a threshold is set), the sample is skipped exactly
    when the sum of its file sizes is strictly below the threshold:
    the round then ends well after the message of the gate, with no
    tool call and no upload.  Otherwise the round goes on to the tool
    call.  A sum equal to the threshold is processed; a sum one below
    it is skipped. *)
Theorem size_gate_boundary (sample : string) (st : state) (m : Z)
    (Hmin : min_size ctx = Some m)
    (Hdir : exists_dir (result_path ctx) (dirs st) = false) :
  let total := Py.sum (dd_get sample (sample_sizes sl)) in
  let skip :=
    (Ok tt, push (Info (sample ++ " is below min_size, skipping"))
                 (entered (result_path ctx) st)) in
  (process_sample ns upload_file ctx sl sample st = skip <-> (total < m)%Z)
  /\ ((m <= total)%Z ->
      process_sample ns upload_file ctx sl sample st
      = invoke_and_publish ns upload_file ctx sl sample
          (entered (result_path ctx) st))
  /\ (total = m -> process_sample ns upload_file ctx sl sample st <> skip)
  /\ (total = (m - 1)%Z -> process_sample ns upload_file ctx sl sample st = skip).
Proof.
  intros total skip.
  pose proof (round_enter sample st Hdir) as E. rewrite Hmin in E.
  fold total in E.
  assert (Hno : (m <= total)%Z ->
                process_sample ns upload_file ctx sl sample st <> skip).
  { intros Hle. destruct (Z.ltb_spec total m); [lia|].
    rewrite E. intros Hs. apply publish_ok_trace in Hs.
    destruct Hs as [t Ht]. discriminate Ht. }
  repeat split.
  - intros Hs. destruct (Z.lt_ge_cases total m) as [|Hle]; [assumption|].
    now apply Hno in Hle.
  - intros Hlt. rewrite E. now destruct (Z.ltb_spec total m); [|lia].
  - intros Hle. rewrite E. now destruct (Z.ltb_spec total m); [lia|].
  - intros Heq. apply Hno. lia.
  - intros Heq. rewrite E. now destruct (Z.ltb_spec total m); [|lia].
Qed.

End Loop.

Lemma size_gate_boundary_witness :
  process_sample module_namespace uploads_ok (demo_ctx (Some 12%Z)) demo_samples
    "sA" demo_state
  = (Ok tt, push (Info "sA is below min_size, skipping")
                 (entered ["/mnt"; "data"; "results"] demo_state))
  /\ process_sample module_namespace uploads_ok (demo_ctx (Some 11%Z)) demo_samples
       "sA" demo_state
     = (Raise (NameError "log_command"),
        entered ["/mnt"; "data"; "results"] demo_state).
Proof.
  split.
  - pose proof (size_gate_boundary module_namespace uploads_ok
                  (demo_ctx (Some 12%Z)) demo_samples "sA" demo_state 12%Z
                  eq_refl eq_refl) as H.
    cbv zeta in H. destruct H as (_ & _ & _ & H). now apply H.
  - pose proof (size_gate_boundary module_namespace uploads_ok
                  (demo_ctx (Some 11%Z)) demo_samples "sA" demo_state 11%Z
                  eq_refl eq_refl) as H.
    cbv zeta in H. destruct H as (_ & H & _). rewrite H; [reflexivity|].
    vm_compute. discriminate.
Defined.


Lemma classify_true_iff (markers : list string) (r : tool_result) :
  classify_invocation_result markers r = true <->
  (exit_code r <> 0%Z
   \/ exists mk, In mk markers /\ Py.contains mk (captured r) = true).
Proof.
  unfold classify_invocation_result. rewrite orb_true_iff, existsb_exists.
  rewrite negb_true_iff, Z.eqb_neq. reflexivity.
Qed.

(** C2.  With [log_command] bound to the helper the spec describes,
    the flag the helper returns is true exactly when the exit code of
    the tool is not 0 or a failure marker occurs in the captured
    output; in particular with exit code 0 and a marker in the output.
    On a true flag the round raises [RuntimeError "loompy failed"]
    right after the tool call, before any upload; on a false flag it
    goes on to the upload. *)
Theorem tool_failure_classification
    (tool : list arg -> tool_result) (markers : list string) (d : option path)
    (upload_file : string -> string -> string -> option exn)
    (ctx : context) (sl : samples) (sample : string) (st : state) :
  let ns := {| log_command := Some (spec_log_command tool markers);
               dest_dir := d |} in
  let command := tool_command ctx sl sample in
  let r := tool command in
  let failed := classify_invocation_result markers r in
  let filename := path_str (path_div (result_path ctx) (loom ctx)) in
  let key := Py.path_join (s3_output_prefix ctx) (loom ctx) in
  (failed = true <->
   (exit_code r <> 0%Z
    \/ exists mk, In mk markers /\ Py.contains mk (captured r) = true))
  /\ (exit_code r = 0%Z ->
      (exists mk, In mk markers /\ Py.contains mk (captured r) = true) ->
      failed = true)
  /\ (failed = true ->
      invoke_and_publish ns upload_file ctx sl sample st
      = (Raise (RuntimeError "loompy failed"), push (ToolRun command true) st))
  /\ (failed = false ->
      exists out st',
        invoke_and_publish ns upload_file ctx sl sample st = (out, st')
        /\ In (ToolRun command false) (trace st')
        /\ In (Upload filename (s3_output_bucket ctx) key
                 (upload_file filename (s3_output_bucket ctx) key))
              (trace st')).
Proof.
  intros ns command r failed filename key.
  split; [apply classify_true_iff|].
  split; [intros _ H; apply classify_true_iff; now right|].
  split.
  - intros Hf.
    unfold invoke_and_publish, call_log_command, bind, lift, emit, ret.
    cbn [log_command ns]. unfold spec_log_command.
    fold command r failed. now rewrite Hf.
  - intros Hf.
    unfold invoke_and_publish, call_log_command, call_upload_file, bind, lift,
      emit, ret, raise, rm_rf.
    cbn [log_command dest_dir ns]. unfold spec_log_command.
    fold command r failed filename key. rewrite Hf.
    cbn [push trace dirs cwd].
    destruct (upload_file filename (s3_output_bucket ctx) key) as [e|] eqn:Eu.
    + eexists _, _. split; [reflexivity|]. cbn [trace]. rewrite <- Eu.
      split; [right; right; now left | now left].
    + destruct d as [d|].
      * eexists _, _. split; [reflexivity|]. cbn [trace push]. rewrite <- Eu.
        split; [do 4 right; now left | right; right; now left].
      * eexists _, _. split; [reflexivity|]. cbn [trace]. rewrite <- Eu.
        split; [right; right; now left | now left].
Qed.

Lemma tool_failure_classification_witness :
  invoke_and_publish
    {| log_command :=
         Some (spec_log_command
                 (fun _ => {| exit_code := 0; captured := "kallisto: Error opening file" |})
                 ["Error"]);
       dest_dir := None |}
    uploads_ok (demo_ctx (Some 1%Z)) demo_samples "sA" demo_state
  = (Raise (RuntimeError "loompy failed"),
     push (ToolRun (tool_command (demo_ctx (Some 1%Z)) demo_samples "sA") true)
          demo_state).
Proof.
  pose proof (tool_failure_classification
                (fun _ => {| exit_code := 0; captured := "kallisto: Error opening file" |})
                ["Error"] None uploads_ok (demo_ctx (Some 1%Z)) demo_samples
                "sA" demo_state) as H.
  cbv zeta in H. destruct H as (_ & _ & H & _).
  apply H. reflexivity.
Defined.


Section Rounds.

Variable ns : namespace.
Variable upload_file : string -> string -> string -> option exn.
Variable ctx : context.
Variable sl : samples.

(** The round after the gate, one case per way it can end. *)
Lemma publish_unfold (sample : string) (st : state) :
  let command := tool_command ctx sl sample in
  let filename := path_str (path_div (result_path ctx) (loom ctx)) in
  let key := Py.path_join (s3_output_prefix ctx) (loom ctx) in
  let raised := upload_file filename (s3_output_bucket ctx) key in
  let st2 :=
    push (Upload filename (s3_output_bucket ctx) key raised)
      (push (Info ("Uploading " ++ loom ctx)) (push (ToolRun command false) st)) in
  invoke_and_publish ns upload_file ctx sl sample st =
  match log_command ns with
  | None => (Raise (NameError "log_command"), st)
  | Some f =>
      match f command with
      | Raise e => (Raise e, st)
      | Ok true =>
          (Raise (RuntimeError "loompy failed"), push (ToolRun command true) st)
      | Ok false =>
          match raised with
          | Some e => (Raise e, st2)
          | None =>
              match dest_dir ns with
              | None => (Raise (NameError "dest_dir"), st2)
              | Some d =>
                  (Ok tt,
                   push (Sleep 30)
                     {| dirs := without_dir d (dirs st2);
                        cwd := cwd st2;
                        trace := Shell [Str "rm"; Str "-rf"; PathArg d]
                                   :: trace st2 |})
              end
          end
      end
  end.
Proof.
  intros command filename key raised st2.
  unfold invoke_and_publish, call_log_command, call_upload_file, bind, lift,
    emit, ret, raise, rm_rf.
  fold command filename key. fold raised.
  destruct (log_command ns) as [f|]; [|reflexivity].
  destruct (f command) as [[|]|e]; try reflexivity.
  fold st2. destruct raised; [reflexivity|].
  destruct (dest_dir ns); reflexivity.
Qed.

Lemma for_each_cons (body : string -> M unit) (x : string) (l : list string)
    (st : state) :
  for_each body (x :: l) st =
  match body x st with
  | (Ok _, st') => for_each body l st'
  | (Raise e, st') => (Raise e, st')
  end.
Proof. reflexivity. Qed.

Lemma exists_dir_true (p : path) (ds : list path) :
  exists_dir p ds = true <-> In p ds.
Proof.
  unfold exists_dir. destruct (in_dec path_eq_dec p ds); split; auto.
  discriminate.
Qed.

Lemma in_prefixes_self (p : path) : p <> [] -> In p (prefixes p).
Proof.
  induction p as [|x p IH]; [congruence|]. intros _.
  destruct p as [|y p]; [now left|].
  right. apply in_map. apply IH. discriminate.
Qed.

Lemma exists_dir_with_dir (p : path) (ds : list path) :
  p <> [] -> exists_dir p (with_dir p ds) = true.
Proof.
  intros Hp. apply exists_dir_true. unfold with_dir. apply in_or_app.
  destruct (exists_dir p ds) eqn:E.
  - right. now apply exists_dir_true.
  - left. apply filter_In. split; [now apply in_prefixes_self|].
    now rewrite E.
Qed.

Lemma result_path_nonempty : result_path ctx <> [].
Proof. unfold result_path. intros H. now apply app_eq_nil in H. Qed.



Ltac round_cases sample st :=
  destruct (exists_dir (result_path ctx) (dirs st)) eqn:Hdir;
  [ rewrite (round_exists ns upload_file ctx sl sample st Hdir)
  | rewrite (round_enter ns upload_file ctx sl sample st Hdir);
    destruct (min_size ctx) as [m|];
    [ destruct (Py.sum (dd_get sample (sample_sizes sl)) <? m)%Z eqn:Hgate;
      [ | rewrite publish_unfold; cbv zeta;
          destruct (log_command ns) as [f|];
          [ destruct (f (tool_command ctx sl sample)) as [[|]|e0];
            [ | destruct (upload_file
                            (path_str (path_div (result_path ctx) (loom ctx)))
                            (s3_output_bucket ctx)
                            (Py.path_join (s3_output_prefix ctx) (loom ctx)))
                  as [e1|] eqn:Hup;
                [ | destruct (dest_dir ns) as [d|] eqn:Hdest ]
            | ]
          | ] ]
    | ] ].

Lemma round_guarded (sample : string) (st : state) :
  removal_guarded (trace st) = true ->
  removal_guarded (trace (snd (process_sample ns upload_file ctx sl sample st)))
  = true.
Proof.
  intros H. round_cases sample st; cbn; assumption.
Qed.

Lemma round_upload_raised (sample : string) (st st' : state) (r : result unit) :
  upload_raised (trace st) = false ->
  process_sample ns upload_file ctx sl sample st = (r, st') ->
  upload_raised (trace st') = true ->
  exists f b k e t,
    trace st' = Upload f b k (Some e) :: t
    /\ r = Raise e
    /\ exists_dir (result_path ctx) (dirs st') = true.
Proof.
  unfold upload_raised. intros H.
  round_cases sample st; intros E Hr; inversion E; subst;
    cbn in Hr; rewrite ?H in Hr; try discriminate Hr.
  cbn. do 5 eexists. split; [reflexivity|]. split; [reflexivity|].
  apply exists_dir_with_dir, result_path_nonempty.
Qed.

Lemma round_ok_no_raised_upload (sample : string) (st st' : state) :
  upload_raised (trace st) = false ->
  process_sample ns upload_file ctx sl sample st = (Ok tt, st') ->
  upload_raised (trace st') = false.
Proof.
  intros H E. destruct (upload_raised (trace st')) eqn:Hr; [|reflexivity].
  destruct (round_upload_raised sample st st' (Ok tt) H E Hr)
    as (f & b & k & e & t & _ & Habs & _).
  discriminate Habs.
Qed.


(** C3.  In a run of the loop over any list of samples, every removal
    comes right after an upload that returned without raising; and
    when an upload raises, the run stops with that exception, the
    failed upload is the last thing that happened, and the results
    directory is still on the disk. *)
Theorem upload_before_cleanup (todo : list string) (st : state) :
  let run := for_each (process_sample ns upload_file ctx sl) todo st in
  (removal_guarded (trace st) = true ->
   removal_guarded (trace (snd run)) = true)
  /\
  (upload_raised (trace st) = false ->
   upload_raised (trace (snd run)) = true ->
   exists f b k e t,
     trace (snd run) = Upload f b k (Some e) :: t
     /\ fst run = Raise e
     /\ exists_dir (result_path ctx) (dirs (snd run)) = true).
Proof.
  cbv zeta. revert st. induction todo as [|x todo IH]; intros st.
  - cbn. split; [auto|]. intros H1 H2. congruence.
  - rewrite for_each_cons.
    pose proof (round_guarded x st) as Hg.
    pose proof (round_upload_raised x st) as Hu.
    pose proof (round_ok_no_raised_upload x st) as Ho.
    destruct (process_sample ns upload_file ctx sl x st) as [[[]|e] st'].
    + destruct (IH st') as [IH1 IH2]. split.
      * intros H. apply IH1. now apply Hg.
      * intros H. apply IH2. now apply Ho.
    + split; [exact Hg|].
      intros H1 H2. cbn [fst snd] in *. exact (Hu st' (Raise e) H1 eq_refl H2).
Qed.


(** In the module as it is written, a round that passes the gate stops
    at line 240: the name [log_command] is not bound. *)
Lemma module_round_stops_at_log_command (sample : string) (st : state) (m : Z) :
  min_size ctx = Some m ->
  exists_dir (result_path ctx) (dirs st) = false ->
  (m <= Py.sum (dd_get sample (sample_sizes sl)))%Z ->
  process_sample module_namespace upload_file ctx sl sample st
  = (Raise (NameError "log_command"), entered (result_path ctx) st).
Proof.
  intros Hmin Hdir Hle. rewrite round_enter by assumption. rewrite Hmin.
  now destruct (Z.ltb_spec (Py.sum (dd_get sample (sample_sizes sl))) m); [lia|].
Qed.


(** What a round that ends well has done when both names are bound:
    one tool call and one upload, named after the sample name read
    from the metadata file and not after the sample of the round. *)
Lemma bound_round_artifact (sample : string) (st st' : state) (m : Z)
    (Hmin : min_size ctx = Some m)
    (Hgate : (m <= Py.sum (dd_get sample (sample_sizes sl)))%Z)
    (Hok : process_sample ns upload_file ctx sl sample st = (Ok tt, st')) :
  exists newer,
    trace st' =
    (newer
       ++ Upload
            (path_str (path_div (run_dir ctx ++ ["results"])
                         (sample_name ctx ++ ".loom")%string))
            (s3_output_bucket ctx)
            (Py.path_join (s3_output_prefix ctx) (sample_name ctx ++ ".loom")%string)
            None
       :: Info ("Uploading " ++ sample_name ctx ++ ".loom")%string
       :: ToolRun
            ([Str "loompy"; Str "fromfq"; Str (sample_name ctx ++ ".loom")%string;
              Str (sample_name ctx); PathArg (genome_dir ctx);
              PathArg (metadata_dir ctx)]
               ++ map Str (dd_get sample (sample_lists sl)))
            false
       :: trace st)%list
    /\ filter is_upload newer = []
    /\ filter is_tool_run newer = [].
Proof.
  revert Hok.
  destruct (exists_dir (result_path ctx) (dirs st)) eqn:Hdir.
  - rewrite round_exists by assumption. discriminate.
  - rewrite round_enter by assumption. rewrite Hmin.
    destruct (Z.ltb_spec (Py.sum (dd_get sample (sample_sizes sl))) m); [lia|].
    rewrite publish_unfold. cbv zeta.
    destruct (log_command ns) as [f|]; [|discriminate].
    destruct (f (tool_command ctx sl sample)) as [[|]|e0]; try discriminate.
    destruct (upload_file _ _ _) eqn:Hup; [discriminate|].
    destruct (dest_dir ns) as [d|]; [|discriminate].
    intros E. inversion E. cbn [trace push entered].
    exists [Sleep 30; Shell [Str "rm"; Str "-rf"; PathArg d]].
    split; [|split; reflexivity].
    reflexivity.
Qed.

End Rounds.

Lemma upload_before_cleanup_witness :
  let run :=
    for_each (process_sample (stub_namespace false (Some ["/mnt"; "data"; "sA"]))
                uploads_fail (demo_ctx (Some 1%Z)) demo_samples)
      ["sA"; "sB"] demo_state in
  exists f b k e t,
    trace (snd run) = Upload f b k (Some e) :: t
    /\ fst run = Raise e
    /\ exists_dir ["/mnt"; "data"; "results"] (dirs (snd run)) = true.
Proof.
  exact (proj2 (upload_before_cleanup
                  (stub_namespace false (Some ["/mnt"; "data"; "sA"]))
                  uploads_fail (demo_ctx (Some 1%Z)) demo_samples
                  ["sA"; "sB"] demo_state) eq_refl eq_refl).
Defined.


Lemma bound_round_artifact_example :
  exists newer,
    trace (snd (process_sample
                  (stub_namespace false (Some ["/mnt"; "data"; "sA"]))
                  uploads_ok (demo_ctx (Some 11%Z)) demo_samples "sA" demo_state))
    = (newer
         ++ [Upload "/mnt/data/results/m.loom" "results-bucket" "out/m.loom" None;
             Info "Uploading m.loom";
             ToolRun
               [Str "loompy"; Str "fromfq"; Str "m.loom"; Str "m";
                PathArg ["/mnt"; "genome"; "10X"; "human_GRCh38_gencode.v31"];
                PathArg ["/mnt"; "data"; "metadata"; "meta.tsv"];
                Str "in/sA_L1_R1.fastq.gz"; Str "in/sA_L1_R2.fastq.gz"]
               false])%list.
Proof.
  destruct (bound_round_artifact
              (stub_namespace false (Some ["/mnt"; "data"; "sA"]))
              uploads_ok (demo_ctx (Some 11%Z)) demo_samples "sA" demo_state
              _ 11%Z eq_refl ltac:(vm_compute; discriminate) eq_refl)
    as (newer & H & _).
  exists newer. exact H.
Defined.

(** With both names bound, the artifact of sample sA, and that of
    sample sB, is [m.loom], after the name in the metadata file; and
    the results directory is still there when the round has ended. *)
Lemma artifact_not_named_after_sample :
  let round sample :=
    process_sample (stub_namespace false (Some ["/mnt"; "data"; "sA"]))
      uploads_ok (demo_ctx (Some 1%Z)) demo_samples sample demo_state in
  fst (round "sA") = Ok tt
  /\ fst (round "sB") = Ok tt
  /\ filter is_upload (trace (snd (round "sA")))
     = [Upload "/mnt/data/results/m.loom" "results-bucket" "out/m.loom" None]
  /\ filter is_upload (trace (snd (round "sB")))
     = [Upload "/mnt/data/results/m.loom" "results-bucket" "out/m.loom" None]
  /\ exists_dir ["/mnt"; "data"; "results"] (dirs (snd (round "sA"))) = true.
Proof. repeat split; reflexivity. Qed.

(** C4.  In the module as it is written no sample is processed to its
    end, so no artifact is ever produced or uploaded: a round never
    adds a tool call or an upload to the trace, and the only rounds
    that end well are those the size gate skips.  In the run of the
    example, sample sA passes the gate and the run stops at the call
    of [log_command], a name the module never binds, with nothing
    done and the results directory still on the disk. *)
Theorem no_artifact_as_written :
  (forall (upload_file : string -> string -> string -> option exn)
          (ctx : context) (sl : samples) (sample : string) (st : state),
      let r := process_sample module_namespace upload_file ctx sl sample st in
      filter is_upload (trace (snd r)) = filter is_upload (trace st)
      /\ filter is_tool_run (trace (snd r)) = filter is_tool_run (trace st)
      /\ (fst r = Ok tt ->
          trace (snd r)
          = Info (sample ++ " is below min_size, skipping") :: trace st))
  /\
  (let run :=
     main_from_discovery module_namespace (flat_store demo_files) uploads_ok
       (demo_ctx (Some 1%Z)) demo_state in
   discover (flat_store demo_files) "10x" "bucket" "in" = Ok demo_samples
   /\ assigned (keys (sample_lists demo_samples)) 0 1 = Ok ["sA"; "sB"]
   /\ (1 <= Py.sum (dd_get "sA" (sample_sizes demo_samples)))%Z
   /\ fst run = Raise (NameError "log_command")
   /\ trace (snd run) = []
   /\ exists_dir ["/mnt"; "data"; "results"] (dirs (snd run)) = true).
Proof.
  split.
  - intros upload_file ctx sl sample st. cbv zeta.
    destruct (exists_dir (result_path ctx) (dirs st)) eqn:Hdir.
    + rewrite round_exists by assumption. cbn. repeat split. discriminate.
    + rewrite round_enter by assumption.
      destruct (min_size ctx) as [m|];
        [|cbn; repeat split; discriminate].
      destruct (Py.sum (dd_get sample (sample_sizes sl)) <? m)%Z.
      * cbn. repeat split.
      * rewrite publish_unfold. cbn. repeat split. discriminate.
  - cbv zeta. repeat split; try reflexivity. vm_compute. discriminate.
Qed.


(* ================================================================== *)
(** * Further properties of the script *)

(** ** The dictionaries of the discovery *)

Section Dictionaries.

Local Open Scope list_scope.

Lemma in_keys_dd_append {V} (k x : string) (v : V) (d : defaultdict V) :
  In x (keys (dd_append k v d)) <-> x = k \/ In x (keys d).
Proof.
  unfold keys. induction d as [|[k' vs] d IH]; cbn.
  - intuition.
  - destruct (String.eqb_spec k' k) as [->|Hne]; cbn.
    + intuition.
    + rewrite IH. intuition.
Qed.

Lemma NoDup_keys_dd_append {V} (k : string) (v : V) (d : defaultdict V) :
  NoDup (keys d) -> NoDup (keys (dd_append k v d)).
Proof.
  unfold keys. induction d as [|[k' vs] d IH]; cbn; intros H.
  - constructor; [tauto | constructor].
  - inversion H as [|? ? Hk Hd]; subst.
    destruct (String.eqb_spec k' k) as [->|Hne]; cbn.
    + now constructor.
    + constructor; [|now apply IH].
      intros Hin. apply (in_keys_dd_append k k' v d) in Hin.
      destruct Hin as [->|Hin]; [now apply Hne | contradiction].
Qed.

Lemma dd_get_dd_append_same {V} (k : string) (v : V) (d : defaultdict V) :
  dd_get k (dd_append k v d) = dd_get k d ++ [v].
Proof.
  induction d as [|[k' vs] d IH]; cbn.
  - now rewrite String.eqb_refl.
  - destruct (String.eqb_spec k' k) as [->|Hne]; cbn.
    + now rewrite String.eqb_refl.
    + destruct (String.eqb_spec k' k); [contradiction | exact IH].
Qed.

Lemma dd_get_dd_append_other {V} (k k0 : string) (v : V) (d : defaultdict V) :
  k0 <> k -> dd_get k0 (dd_append k v d) = dd_get k0 d.
Proof.
  intros Hne. induction d as [|[k' vs] d IH]; cbn.
  - destruct (String.eqb_spec k k0); [congruence | reflexivity].
  - destruct (String.eqb_spec k' k) as [->|Hk]; cbn.
    + destruct (String.eqb_spec k k0); [congruence | reflexivity].
    + now rewrite IH.
Qed.

Lemma keys_dd_append_parallel {V W} (k : string) (v : V) (w : W)
    (d : defaultdict V) (e : defaultdict W) :
  keys d = keys e -> keys (dd_append k v d) = keys (dd_append k w e).
Proof.
  unfold keys. revert e. induction d as [|[k' vs] d IH]; intros [|[k'' ws] e];
    cbn; try discriminate; [reflexivity|].
  intros H. inversion H; subst.
  destruct (String.eqb k'' k); cbn; [congruence|].
  f_equal. now apply IH.
Qed.

Lemma all_values_dd_append {V} (k : string) (v : V) (d : defaultdict V) :
  Permutation (all_values (dd_append k v d)) (v :: all_values d).
Proof.
  unfold all_values. induction d as [|[k' vs] d IH]; cbn.
  - reflexivity.
  - destruct (String.eqb k' k); cbn.
    + rewrite <- app_assoc. cbn.
      symmetry. apply Permutation_middle.
    + rewrite IH. symmetry. apply Permutation_middle.
Qed.

Lemma dd_get_nonempty_keys {V} (k : string) (d : defaultdict V) :
  Forall (fun kv => snd kv <> []) d -> In k (keys d) -> dd_get k d <> [].
Proof.
  unfold keys. induction d as [|[k' vs] d IH]; cbn; [tauto|].
  intros H Hin. inversion H as [|? ? Hv Hd]; subst. cbn in Hv.
  destruct (String.eqb_spec k' k) as [->|Hne]; [assumption|].
  destruct Hin as [Hk|Hin]; [contradiction|]. now apply IH.
Qed.

Lemma nonempty_dd_append {V} (k : string) (v : V) (d : defaultdict V) :
  Forall (fun kv => snd kv <> []) d ->
  Forall (fun kv => snd kv <> []) (dd_append k v d).
Proof.
  induction d as [|[k' vs] d IH]; cbn; intros H.
  - constructor; [discriminate | constructor].
  - inversion H as [|? ? Hv Hd]; subst.
    destruct (String.eqb k' k); constructor; auto.
    cbn. intros E. now apply app_eq_nil in E as [_ E].
Qed.

(** One step of the grouping loop, for a technology the loop knows. *)
Lemma group_files_step (technology : string) (matched : option (option string))
    (acc : samples) (fn : string) (s : Z) (rest : list (string * Z)) :
  technology = "10x"%string \/ technology = "smartseq2"%string ->
  group_files technology matched acc ((fn, s) :: rest) =
  match matched_name technology fn with
  | None => group_files technology (Some None) acc rest
  | Some g =>
      group_files technology (Some (Some g))
        {| sample_lists := dd_append g fn (sample_lists acc);
           sample_sizes := dd_append g s (sample_sizes acc) |} rest
  end.
Proof.
  intros [-> | ->]; cbn [group_files]; unfold matched_name.
  - change ("10x" =? "10x")%string with true. cbv iota.
    destruct (Re.search sample_re_10x (Py.basename fn)); reflexivity.
  - change ("smartseq2" =? "10x")%string with false.
    change ("smartseq2" =? "smartseq2")%string with true. cbv iota.
    destruct (Re.search sample_re_smartseq2 (Py.basename fn)); reflexivity.
Qed.

Lemma parallel_append (acc : samples) (g fn : string) (s : Z) :
  parallel acc ->
  parallel {| sample_lists := dd_append g fn (sample_lists acc);
              sample_sizes := dd_append g s (sample_sizes acc) |}.
Proof.
  intros (Hk & Hl & Hn & He). unfold parallel. cbn [sample_lists sample_sizes].
  split; [now apply keys_dd_append_parallel|].
  split; [|split; [now apply NoDup_keys_dd_append | now apply nonempty_dd_append]].
  intros k. destruct (String.eqb_spec k g) as [->|Hne].
  - rewrite !dd_get_dd_append_same, !length_app. now rewrite Hl.
  - now rewrite !dd_get_dd_append_other.
Qed.

Lemma group_files_parallel (technology : string) (files : list (string * Z)) :
  forall (matched : option (option string)) (acc sl : samples),
    group_files technology matched acc files = Ok sl ->
    parallel acc -> parallel sl.
Proof.
  induction files as [|[fn s] rest IH]; intros matched acc sl.
  - cbn. intros E. now inversion E.
  - cbn [group_files].
    destruct (if (technology =? "10x")%string
              then Some (Re.search sample_re_10x (Py.basename fn))
              else if (technology =? "smartseq2")%string
                   then Some (Re.search sample_re_smartseq2 (Py.basename fn))
                   else matched) as [[g|]|]; [| |discriminate].
    + intros E H. apply (IH _ _ _ E). now apply parallel_append.
    + apply IH.
Qed.

Lemma group_files_permutation (technology : string) (files : list (string * Z)) :
  technology = "10x"%string \/ technology = "smartseq2"%string ->
  forall (matched : option (option string)) (acc sl : samples),
    group_files technology matched acc files = Ok sl ->
    Permutation (all_values (sample_lists sl))
      (all_values (sample_lists acc)
         ++ map fst (filter (is_matched technology) files))
    /\ Permutation (all_values (sample_sizes sl))
         (all_values (sample_sizes acc)
            ++ map snd (filter (is_matched technology) files)).
Proof.
  intros Ht. induction files as [|[fn s] rest IH]; intros matched acc sl.
  - cbn. intros E. inversion E. now rewrite !app_nil_r.
  - rewrite group_files_step by assumption.
    cbn [filter].
    change (is_matched technology (fn, s))
      with (match matched_name technology fn with
            | Some _ => true
            | None => false
            end).
    destruct (matched_name technology fn) as [g|].
    + intros E. destruct (IH _ _ _ E) as [H1 H2].
      cbn [sample_lists sample_sizes] in H1, H2. cbn [map fst snd]. split.
      * rewrite H1, all_values_dd_append, <- app_comm_cons.
        apply Permutation_middle.
      * rewrite H2, all_values_dd_append, <- app_comm_cons.
        apply Permutation_middle.
    + apply IH.
Qed.

End Dictionaries.

Lemma fold_left_add_shift (l : list Z) (a : Z) :
  fold_left Z.add l a = (a + Py.sum l)%Z.
Proof.
  unfold Py.sum. revert a. induction l as [|x l IH]; intros a; cbn.
  - lia.
  - rewrite (IH (a + x)%Z), (IH x). lia.
Qed.

Lemma sum_cons (x : Z) (l : list Z) : Py.sum (x :: l) = (x + Py.sum l)%Z.
Proof. unfold Py.sum at 1. cbn. apply fold_left_add_shift. Qed.

Lemma sum_permutation (l l' : list Z) :
  Permutation l l' -> Py.sum l = Py.sum l'.
Proof.
  induction 1 as [|x l l' _ IH|x y l|l l' l'' _ IH1 _ IH2].
  - reflexivity.
  - now rewrite !sum_cons, IH.
  - rewrite !sum_cons. lia.
  - congruence.
Qed.

Lemma parallel_no_samples : parallel no_samples.
Proof.
  repeat split; cbn; constructor.
Qed.

(** X1.  The two dictionaries discovery returns go together: they have
    the same sample names in the same order, no name twice, and under
    every name as many sizes as files, at least one. *)
Theorem discovered_samples_parallel (s3u : s3_util)
    (technology bucket prefix : string) (sl : samples)
    (Hok : discover s3u technology bucket prefix = Ok sl) :
  keys (sample_lists sl) = keys (sample_sizes sl)
  /\ NoDup (keys (sample_lists sl))
  /\ forall k,
       List.length (dd_get k (sample_lists sl))
       = List.length (dd_get k (sample_sizes sl))
       /\ (In k (keys (sample_lists sl)) -> dd_get k (sample_lists sl) <> []).
Proof.
  destruct (group_files_parallel _ _ _ _ _ Hok parallel_no_samples)
    as (Hk & Hl & Hn & He).
  split; [assumption|]. split; [assumption|].
  intros k. split; [apply Hl|]. now apply dd_get_nonempty_keys.
Qed.

Lemma discovered_samples_parallel_witness :
  keys (sample_lists demo_samples) = keys (sample_sizes demo_samples)
  /\ NoDup (keys (sample_lists demo_samples))
  /\ forall k,
       List.length (dd_get k (sample_lists demo_samples))
       = List.length (dd_get k (sample_sizes demo_samples))
       /\ (In k (keys (sample_lists demo_samples)) ->
           dd_get k (sample_lists demo_samples) <> []).
Proof.
  exact (discovered_samples_parallel (flat_store demo_files) "10x" "bucket" "in"
           demo_samples eq_refl).
Defined.

Lemma is_matched_unknown (technology : string) (f : string * Z) :
  technology <> "10x"%string -> technology <> "smartseq2"%string ->
  is_matched technology f = false.
Proof.
  intros H1 H2. unfold is_matched, matched_name.
  apply String.eqb_neq in H1, H2. now rewrite H1, H2.
Qed.

(** X2.  Discovery loses no file and invents none: the files of all
    the samples together are, up to their order, the listed candidates
    whose base name matches the pattern of the technology, each one
    once, and so are the sizes; the sizes of all the samples add up to
    the sizes of these candidates. *)
Theorem discovery_groups_the_matches (s3u : s3_util)
    (technology bucket prefix : string) (sl : samples)
    (Hok : discover s3u technology bucket prefix = Ok sl) :
  let candidates := list_sample_files s3u bucket prefix in
  Permutation (all_values (sample_lists sl))
    (map fst (filter (is_matched technology) candidates))
  /\ Permutation (all_values (sample_sizes sl))
       (map snd (filter (is_matched technology) candidates))
  /\ Py.sum (all_values (sample_sizes sl))
     = Py.sum (map snd (filter (is_matched technology) candidates)).
Proof.
  intros candidates. unfold discover in Hok. fold candidates in Hok.
  assert (H : Permutation (all_values (sample_lists sl))
                (map fst (filter (is_matched technology) candidates))
              /\ Permutation (all_values (sample_sizes sl))
                   (map snd (filter (is_matched technology) candidates))).
  { destruct (String.eqb_spec technology "10x") as [E1|N1];
      [|destruct (String.eqb_spec technology "smartseq2") as [E2|N2]].
    - exact (group_files_permutation technology candidates (or_introl E1)
               _ _ _ Hok).
    - exact (group_files_permutation technology candidates (or_intror E2)
               _ _ _ Hok).
    - destruct candidates as [|f rest].
      + cbn in Hok. inversion Hok. split; constructor.
      + rewrite group_files_unbound in Hok by assumption. discriminate. }
  destruct H as [H1 H2]. split; [assumption|]. split; [assumption|].
  now apply sum_permutation.
Qed.

Lemma discovery_groups_the_matches_witness :
  Permutation (all_values (sample_lists demo_samples))
    (map fst (filter (is_matched "10x")
                (list_sample_files (flat_store demo_files) "bucket" "in")))
  /\ Py.sum (all_values (sample_sizes demo_samples)) = 18%Z.
Proof.
  destruct (discovery_groups_the_matches (flat_store demo_files) "10x" "bucket"
              "in" demo_samples eq_refl) as (H1 & _ & H3).
  split; [exact H1|]. reflexivity.
Defined.

Section Names.

Local Open Scope list_scope.
Local Open Scope char_scope.

Lemma plus_run_in (c : Re.cclass) (s s1 : list ascii) :
  In s1 (Re.plus_run c s) <->
  exists w, w <> [] /\ Forall (fun a => Re.cmatch c a = true) w /\ s = w ++ s1.
Proof.
  revert s1. induction s as [|a s IH]; intros s1; cbn.
  - split; [intros []|]. intros (w & Hw & _ & E).
    symmetry in E. apply app_eq_nil in E. destruct E. contradiction.
  - destruct (Re.cmatch c a) eqn:Ea.
    + rewrite in_app_iff, IH. cbn. split.
      * intros [(w & Hw & Hf & ->) | [<- | []]].
        -- exists (a :: w). repeat split; [discriminate | now constructor].
        -- exists [a]. repeat split; [discriminate | now repeat constructor].
      * intros (w & Hw & Hf & E). destruct w as [|b w]; [congruence|].
        cbn in E. inversion E; subst. inversion Hf; subst.
        destruct w as [|b' w]; [right; now left|].
        left. exists (b' :: w). repeat split; [discriminate | assumption].
    + split; [intros []|]. intros (w & Hw & Hf & E).
      destruct w as [|b w]; [congruence|]. cbn in E. inversion E; subst.
      inversion Hf; subst. congruence.
Qed.

Lemma firstn_app_exact {A} (w s1 : list A) :
  firstn (List.length (w ++ s1) - List.length s1) (w ++ s1) = w.
Proof.
  rewrite length_app, Nat.add_sub. rewrite firstn_app, Nat.sub_diag.
  cbn. rewrite app_nil_r. apply firstn_all.
Qed.

(** What a match at the head of [s] says of its group. *)
Lemma match_here_group (p : Re.pattern) (s g : list ascii) :
  Re.captured p = Re.Plus Re.NotSlash ->
  In g (Re.match_here p s) ->
  exists s1,
    s = g ++ s1 /\ g <> []
    /\ Forall (fun a => a <> "/") g
    /\ Re.run (Re.tail p) s1 <> [].
Proof.
  intros Hc. unfold Re.match_here. rewrite Hc. cbn [Re.run].
  intros H. apply in_flat_map in H. destruct H as (s1 & Hs1 & Hg).
  apply plus_run_in in Hs1. destruct Hs1 as (w & Hw & Hf & ->).
  rewrite firstn_app_exact in Hg.
  exists s1. apply in_map_iff in Hg. destruct Hg as (x & <- & Hx).
  repeat split; try assumption.
  - eapply Forall_impl; [|exact Hf]. cbn. intros a Ha ->. discriminate Ha.
  - intros E. rewrite E in Hx. exact Hx.
Qed.

Lemma match_here_longer (p : Re.pattern) (a : ascii) (s : list ascii) :
  Re.captured p = Re.Plus Re.NotSlash ->
  a <> "/" ->
  Re.match_here p s <> [] -> Re.match_here p (a :: s) <> [].
Proof.
  intros Hc Ha H.
  destruct (Re.match_here p s) as [|g gs] eqn:E; [congruence|].
  assert (Hin : In g (Re.match_here p s)) by (rewrite E; now left).
  unfold Re.match_here in Hin. rewrite Hc in Hin. cbn [Re.run] in Hin.
  apply in_flat_map in Hin. destruct Hin as (s1 & Hs1 & Hg).
  apply plus_run_in in Hs1. destruct Hs1 as (w & Hw & Hf & ->).
  assert (Hin' : In (firstn (List.length (a :: w ++ s1) - List.length s1)
                       (a :: w ++ s1))
                    (Re.match_here p (a :: w ++ s1))).
  { unfold Re.match_here. rewrite Hc. cbn [Re.run].
    apply in_flat_map. exists s1. split.
    - apply plus_run_in. exists (a :: w).
      split; [discriminate|]. split; [|reflexivity].
      constructor; [|assumption]. cbn. now destruct (Ascii.eqb_spec a "/").
    - apply in_map_iff in Hg. destruct Hg as (x & _ & Hx).
      apply in_map_iff. now exists x. }
  intros E'. rewrite E' in Hin'. exact Hin'.
Qed.

Lemma search_chars_head (p : Re.pattern) (s : list ascii) :
  Re.captured p = Re.Plus Re.NotSlash ->
  Forall (fun a => a <> "/") s ->
  Re.search_chars p s = hd_error (Re.match_here p s).
Proof.
  intros Hc. induction 1 as [|a s Ha Hs IH]; cbn [Re.search_chars].
  - now destruct (Re.match_here p []).
  - destruct (Re.match_here p (a :: s)) as [|g gs] eqn:E; [|reflexivity].
    rewrite IH. destruct (Re.match_here p s) as [|g gs] eqn:E'; [reflexivity|].
    exfalso. apply (match_here_longer p a s Hc Ha); [rewrite E'; discriminate|].
    exact E.
Qed.

Lemma basename_chars_no_slash (s : list ascii) :
  Forall (fun a => a <> "/") (Py.basename_chars s).
Proof.
  induction s as [|a s IH]; cbn; [constructor|].
  destruct (existsb (Ascii.eqb "/") s) eqn:E; [assumption|].
  assert (Hs : Forall (fun a => a <> "/") s).
  { apply Forall_forall. intros x Hx ->.
    assert (existsb (Ascii.eqb "/") s = true); [|congruence].
    apply existsb_exists. exists "/". split; [assumption | reflexivity]. }
  destruct (Ascii.eqb_spec a "/"); [assumption | now constructor].
Qed.

Lemma search_group (p : Re.pattern) (fn g : string) :
  Re.captured p = Re.Plus Re.NotSlash ->
  Re.search p (Py.basename fn) = Some g ->
  exists s1,
    list_ascii_of_string (Py.basename fn) = list_ascii_of_string g ++ s1
    /\ list_ascii_of_string g <> []
    /\ Forall (fun a => a <> "/") (list_ascii_of_string g)
    /\ Re.run (Re.tail p) s1 <> [].
Proof.
  intros Hc. unfold Re.search, Py.basename.
  rewrite list_ascii_of_string_of_list_ascii.
  rewrite search_chars_head
    by (assumption || apply basename_chars_no_slash).
  destruct (Re.match_here p (Py.basename_chars (list_ascii_of_string fn)))
    as [|g0 gs] eqn:E; cbn; [discriminate|].
  intros H. inversion H; subst. rewrite list_ascii_of_string_of_list_ascii.
  apply (match_here_group p _ g0 Hc). rewrite E. now left.
Qed.

Lemma tail_smartseq2_head (s1 : list ascii) :
  Re.run (Re.tail sample_re_smartseq2) s1 <> [] ->
  exists d rest, s1 = "_" :: "R" :: d :: rest /\ Re.is_digit d = true.
Proof.
  cbn [Re.tail sample_re_smartseq2 Re.cat_all].
  rewrite run_cat_lit.
  destruct s1 as [|a s2]; [congruence|].
  destruct (Ascii.eqb "_" a) eqn:Ea; [|congruence].
  apply Ascii.eqb_eq in Ea. subst a.
  rewrite run_cat_lit.
  destruct s2 as [|b s3]; [congruence|].
  destruct (Ascii.eqb "R" b) eqn:Eb; [|congruence].
  apply Ascii.eqb_eq in Eb. subst b.
  cbn [Re.run]. intros H. apply flat_map_nonempty in H.
  destruct s3 as [|d rest]; [congruence|].
  cbn [Re.cmatch] in H. destruct (Re.is_digit d) eqn:Ed; [|congruence].
  now exists d, rest.
Qed.

(** X3.  The name a file is grouped under is the part of its base name
    before the marker: when the 10x pattern finds a sample [g] in the
    base name of a key, the base name is [g] followed by [_L] and a
    digit; with the other pattern it is [g] followed by [_R] and a
    digit.  In both cases [g] is not empty and holds no slash. *)
Theorem sample_name_precedes_marker (fn g : string) :
  (Re.search sample_re_10x (Py.basename fn) = Some g ->
   exists d rest,
     list_ascii_of_string (Py.basename fn)
     = list_ascii_of_string g ++ "_" :: "L" :: d :: rest
     /\ Re.is_digit d = true
     /\ g <> ""%string
     /\ Forall (fun a => a <> "/") (list_ascii_of_string g))
  /\
  (Re.search sample_re_smartseq2 (Py.basename fn) = Some g ->
   exists d rest,
     list_ascii_of_string (Py.basename fn)
     = list_ascii_of_string g ++ "_" :: "R" :: d :: rest
     /\ Re.is_digit d = true
     /\ g <> ""%string
     /\ Forall (fun a => a <> "/") (list_ascii_of_string g)).
Proof.
  split; intros H; apply search_group in H; try reflexivity;
    destruct H as (s1 & E & Hg & Hs & Ht).
  - apply tail_10x_head in Ht. destruct Ht as (d & rest & -> & Hd).
    exists d, rest. repeat split; try assumption. intros ->. now apply Hg.
  - apply tail_smartseq2_head in Ht. destruct Ht as (d & rest & -> & Hd).
    exists d, rest. repeat split; try assumption. intros ->. now apply Hg.
Qed.

Lemma sample_name_precedes_marker_witness :
  exists d rest,
    list_ascii_of_string (Py.basename "in/f1/sA_L1_R2.fastq.gz")
    = list_ascii_of_string "sA" ++ "_" :: "L" :: d :: rest
    /\ Re.is_digit d = true.
Proof.
  destruct (proj1 (sample_name_precedes_marker "in/f1/sA_L1_R2.fastq.gz" "sA")
              eq_refl) as (d & rest & H1 & H2 & _).
  now exists d, rest.
Defined.

End Names.

Section Selection.

Local Open Scope list_scope.

Lemma slice_position_bounds (len start step : Z) (k : nat) :
  (0 <= len)%Z -> step <> 0%Z ->
  let s := Py.slice_start len start step in
  (Z.of_nat k < Py.slice_length s (Py.slice_stop len step) step)%Z ->
  (0 <= s + Z.of_nat k * step < len)%Z.
Proof.
  intros Hlen Hstep s. subst s.
  unfold Py.slice_start, Py.slice_stop, Py.slice_length.
  set (K := Z.of_nat k). assert (HK : (0 <= K)%Z) by (subst K; lia).
  clearbody K.
  destruct (Z.ltb_spec step 0) as [Hneg|Hpos].
  - assert (Hdiv : forall a, (0 <= a)%Z -> (K <= a / (- step))%Z ->
                             (K * (- step) <= a)%Z).
    { intros a Ha Hk. pose proof (Z.mul_div_le a (- step)). nia. }
    destruct (Z.ltb_spec start 0).
    + destruct (Z.ltb_spec (start + len) 0).
      * destruct (Z.ltb_spec (-1) (-1)); lia.
      * destruct (Z.ltb_spec (-1) (start + len)); [|lia].
        intros Hk. specialize (Hdiv (start + len)%Z).
        replace (start + len - -1 - 1)%Z with (start + len)%Z in Hk by lia.
        nia.
    + destruct (Z.leb_spec len start).
      * destruct (Z.ltb_spec (-1) (len - 1)); [|lia].
        intros Hk. specialize (Hdiv (len - 1)%Z).
        replace (len - 1 - -1 - 1)%Z with (len - 1)%Z in Hk by lia.
        nia.
      * destruct (Z.ltb_spec (-1) start); [|lia].
        intros Hk. specialize (Hdiv start).
        replace (start - -1 - 1)%Z with start in Hk by lia.
        nia.
  - assert (Hdiv : forall a, (0 <= a)%Z -> (K <= a / step)%Z ->
                             (K * step <= a)%Z).
    { intros a Ha Hk. pose proof (Z.mul_div_le a step). nia. }
    destruct (Z.ltb_spec start 0).
    + destruct (Z.ltb_spec (start + len) 0).
      * destruct (Z.ltb_spec 0 len); [|lia].
        intros Hk. specialize (Hdiv (len - 0 - 1)%Z). nia.
      * destruct (Z.ltb_spec (start + len) len); [|lia].
        intros Hk. specialize (Hdiv (len - (start + len) - 1)%Z). nia.
    + destruct (Z.leb_spec len start).
      * destruct (Z.ltb_spec len len); lia.
      * destruct (Z.ltb_spec start len); [|lia].
        intros Hk. specialize (Hdiv (len - start - 1)%Z). nia.
Qed.

Lemma slice_positions_in_range (len : nat) (start step : Z) :
  step <> 0%Z ->
  Forall (fun p => (p < len)%nat) (Py.slice_positions (Z.of_nat len) start step).
Proof.
  intros Hstep. apply Forall_forall. intros p Hp.
  unfold Py.slice_positions in Hp. apply in_map_iff in Hp.
  destruct Hp as (k & <- & Hk). apply in_seq in Hk.
  pose proof (slice_position_bounds (Z.of_nat len) start step k) as H.
  cbv zeta in H. lia.
Qed.

Lemma slice_positions_NoDup (len : nat) (start step : Z) :
  step <> 0%Z -> NoDup (Py.slice_positions (Z.of_nat len) start step).
Proof.
  intros Hstep. unfold Py.slice_positions.
  apply Injective_map_NoDup_in; [|apply seq_NoDup].
  intros x y Hx Hy E. apply in_seq in Hx, Hy.
  pose proof (slice_position_bounds (Z.of_nat len) start step x) as Bx.
  pose proof (slice_position_bounds (Z.of_nat len) start step y) as By.
  cbv zeta in Bx, By. nia.
Qed.

Lemma NoDup_pick {A} (l : list A) (ps : list nat) :
  NoDup l -> NoDup ps -> NoDup (Py.pick l ps).
Proof.
  intros Hl Hps. unfold Py.pick. apply NoDup_flat_map_disjoint.
  - assumption.
  - intros p _. destruct (nth_error l p); repeat constructor. tauto.
  - intros p q b _ _ Hp Hq.
    destruct (nth_error l p) as [x|] eqn:Ep; [|contradiction].
    destruct (nth_error l q) as [y|] eqn:Eq; [|contradiction].
    destruct Hp as [->|[]], Hq as [->|[]].
    apply (proj1 (NoDup_nth_error l) Hl).
    + apply nth_error_Some. congruence.
    + congruence.
Qed.

(** X4.  Whatever the shard index, and whatever the shard count other
    than 0, the selection holds only names that were discovered, and
    no name twice when the names are distinct: also with an index or a
    count outside their contract, a run never takes a sample twice and
    never a sample that was not found. *)
Theorem selection_from_the_names (names : list string) (i n : Z)
    (Hn : n <> 0%Z) :
  exists l,
    assigned names i n = Ok l
    /\ (forall x, In x l -> In x names)
    /\ (NoDup names -> NoDup l).
Proof.
  unfold assigned, Py.slice_from_step.
  destruct (Z.eqb_spec n 0); [contradiction|].
  eexists. split; [reflexivity|]. split.
  - intros x Hx. apply in_pick in Hx. destruct Hx as (p & _ & Hp).
    apply nth_error_In in Hp.
    now apply (Permutation_in x (sorted_perm names)).
  - intros Hnd. apply NoDup_pick.
    + apply (Permutation_NoDup (l := names)); [|assumption].
      symmetry. apply sorted_perm.
    + now apply slice_positions_NoDup.
Qed.

Lemma selection_from_the_names_witness :
  exists l,
    assigned ["d"; "b"; "a"; "c"; "e"]%string (-1) (-2) = Ok l
    /\ (forall x, In x l -> In x ["d"; "b"; "a"; "c"; "e"]%string).
Proof.
  destruct (selection_from_the_names ["d"; "b"; "a"; "c"; "e"]%string (-1) (-2)
              ltac:(discriminate)) as (l & H1 & H2 & _).
  now exists l.
Defined.

Lemma length_pick {A} (l : list A) (ps : list nat) :
  Forall (fun p => (p < List.length l)%nat) ps ->
  List.length (Py.pick l ps) = List.length ps.
Proof.
  unfold Py.pick. induction 1 as [|p ps Hp _ IH]; cbn; [reflexivity|].
  apply nth_error_Some in Hp.
  destruct (nth_error l p); [|congruence]. cbn. now rewrite IH.
Qed.

Lemma length_stride (len i n : nat) :
  List.length (stride len i n)
  = if (i <? len)%nat then ((len - i - 1) / n + 1)%nat else 0%nat.
Proof. unfold stride. now rewrite length_map, length_seq. Qed.

(** X5.  The shards are balanced: for a shard count [n >= 1] and two
    shard indices [i <= j] below [n], shard [i] gets as many samples
    as shard [j], or one more. *)
Theorem shards_balanced (names : list string) (n : Z) (i j : nat)
    (Hn : (1 <= n)%Z) (Hij : (i <= j)%nat) (Hj : (j < Z.to_nat n)%nat) :
  exists li lj,
    assigned names (Z.of_nat i) n = Ok li
    /\ assigned names (Z.of_nat j) n = Ok lj
    /\ (List.length lj <= List.length li <= List.length lj + 1)%nat.
Proof.
  set (N := Z.to_nat n). assert (HN : (1 <= N)%nat) by lia.
  replace n with (Z.of_nat N) by lia.
  rewrite !assigned_stride by assumption.
  eexists _, _. split; [reflexivity|]. split; [reflexivity|].
  rewrite !length_pick by (apply stride_in_range; lia).
  rewrite !length_stride.
  set (len := List.length (sorted names)).
  destruct (Nat.ltb_spec i len) as [Hi|Hi], (Nat.ltb_spec j len) as [Hjl|Hjl];
    try lia.
  - assert (H1 : ((len - j - 1) / N <= (len - i - 1) / N)%nat)
      by (apply Nat.Div0.div_le_mono; lia).
    assert (H2 : ((len - i - 1) / N <= (len - j - 1 + 1 * N) / N)%nat)
      by (apply Nat.Div0.div_le_mono; lia).
    rewrite Nat.div_add in H2 by lia. lia.
  - rewrite Nat.div_small by lia. lia.
Qed.

Lemma shards_balanced_witness :
  exists li lj,
    assigned ["d"; "b"; "a"; "c"; "e"]%string 0 2 = Ok li
    /\ assigned ["d"; "b"; "a"; "c"; "e"]%string 1 2 = Ok lj
    /\ (List.length lj <= List.length li <= List.length lj + 1)%nat.
Proof.
  exact (shards_balanced ["d"; "b"; "a"; "c"; "e"]%string 2 0 1
           ltac:(lia) ltac:(lia) ltac:(lia)).
Defined.

End Selection.

(** ** The first lines of [main] *)

Lemma append_assoc (s t u : string) : (s ++ t) ++ u = s ++ (t ++ u).
Proof. induction s as [|a s IH]; cbn; [reflexivity | now rewrite IH]. Qed.

Lemma list_ascii_of_string_app (s t : string) :
  list_ascii_of_string (s ++ t)
  = (list_ascii_of_string s ++ list_ascii_of_string t)%list.
Proof. induction s as [|a s IH]; cbn; [reflexivity | now rewrite IH]. Qed.

(** X6.  Only one slash is cut from the input path, and only at its
    end: a path written with a slash after it gives the path back, a
    path that does not end in a slash is left as it is, and since one
    character at most goes, a path ending in two slashes still ends in
    one. *)
Theorem strip_trailing_slash_once (p : string) :
  strip_trailing_slash (p ++ "/") = p
  /\ (Py.endswith p "/" = false -> strip_trailing_slash p = p)
  /\ Py.endswith (strip_trailing_slash (p ++ "//")) "/" = true.
Proof.
  assert (Hcut : forall q, strip_trailing_slash (q ++ "/") = q).
  { intros q. unfold strip_trailing_slash, Py.endswith.
    rewrite list_ascii_of_string_app. cbn [list_ascii_of_string].
    rewrite rev_app_distr. cbn.
    rewrite removelast_last. apply string_of_list_ascii_of_string. }
  split; [apply Hcut|]. split.
  - intros H. unfold strip_trailing_slash. now rewrite H.
  - replace (p ++ "//") with ((p ++ "/") ++ "/").
    + rewrite Hcut. unfold Py.endswith.
      rewrite list_ascii_of_string_app, rev_app_distr. reflexivity.
    + now rewrite append_assoc.
Qed.

Lemma strip_trailing_slash_once_witness :
  strip_trailing_slash "s3://bucket/run1" = "s3://bucket/run1".
Proof.
  apply (proj1 (proj2 (strip_trailing_slash_once "s3://bucket/run1"))).
  reflexivity.
Defined.

(** X7.  The metadata file is read for its first data row only: the
    read fails with an index error exactly when there is no row after
    the header or that row has fewer than two fields, and otherwise
    gives the first two fields of that row, whatever rows follow. *)
Theorem read_metadata_first_row (rows : list (list string)) :
  (read_metadata rows = inr IndexError <->
   (List.length rows < 2)%nat \/ (List.length (nth 1 rows []) < 2)%nat)
  /\
  (forall name tech,
      read_metadata rows = inl (name, tech) <->
      exists header more later,
        rows = header :: (name :: tech :: more) :: later).
Proof.
  destruct rows as [|header [|[|name [|tech more]] later]]; cbn; split;
    try (split; [intros; lia | reflexivity]);
    try (intros name0 tech0; split;
         [discriminate | intros (h & m & l & E); discriminate E]).
  - split; [discriminate | lia].
  - intros name0 tech0. split.
    + intros E. inversion E; subst. now exists header, more, later.
    + intros (h & m & l & E). now inversion E.
Qed.

Lemma read_metadata_first_row_witness :
  read_metadata [["sample"; "technology"]; ["s1"; "10x"; "3000"];
                 ["s2"; "smartseq2"; "100"]]
  = inl ("s1", "10x").
Proof.
  apply (proj2 (read_metadata_first_row _)).
  now exists ["sample"; "technology"], ["3000"], [["s2"; "smartseq2"; "100"]].
Defined.

(** X8.  Whenever the genome directory gets bound at lines 153-156,
    the index that is downloaded into it is bound too, and it is the
    10X index of the genome, also for a smartseq2 run, whose directory
    is the smartseq2 one. *)
Theorem genome_index_is_the_10x_one (root_dir : path)
    (technology genome_name : string) :
  (forall dir,
      genome_dir_of root_dir technology genome_name = Ok dir ->
      s3_genome_index_of technology genome_name
      = Ok ("czbiohub-reference/loompy/10X/" ++ genome_name))
  /\
  (Py.contains "10x" technology = false ->
   Py.contains "smartseq2" technology = true ->
   genome_dir_of root_dir technology genome_name
   = Ok (root_dir ++ ["genome"; "smartseq2"; genome_name])%list
   /\ s3_genome_index_of technology genome_name
      = Ok ("czbiohub-reference/loompy/10X/" ++ genome_name)).
Proof.
  unfold genome_dir_of, s3_genome_index_of.
  destruct (Py.contains "10x" technology), (Py.contains "smartseq2" technology);
    split; try discriminate; try (intros; reflexivity).
  intros _ _. split; reflexivity.
Qed.

Lemma genome_index_is_the_10x_one_witness :
  genome_dir_of ["/mnt"] "smartseq2" "human_GRCh38_gencode.v31"
  = Ok ["/mnt"; "genome"; "smartseq2"; "human_GRCh38_gencode.v31"]
  /\ s3_genome_index_of "smartseq2" "human_GRCh38_gencode.v31"
     = Ok "czbiohub-reference/loompy/10X/human_GRCh38_gencode.v31".
Proof.
  apply (proj2 (genome_index_is_the_10x_one ["/mnt"] "smartseq2"
                  "human_GRCh38_gencode.v31")); reflexivity.
Defined.

(** ** Whole runs of the loop *)

Section Runs.

Variable ns : namespace.
Variable upload_file : string -> string -> string -> option exn.
Variable ctx : context.
Variable sl : samples.

Ltac each_round sample st :=
  destruct (exists_dir (result_path ctx) (dirs st)) eqn:Hdir;
  [ rewrite (round_exists ns upload_file ctx sl sample st Hdir)
  | rewrite (round_enter ns upload_file ctx sl sample st Hdir);
    destruct (min_size ctx) as [m|] eqn:Hmin;
    [ destruct (Py.sum (dd_get sample (sample_sizes sl)) <? m)%Z eqn:Hgate;
      [ | rewrite (publish_unfold ns upload_file ctx sl); cbv zeta;
          destruct (log_command ns) as [f|] eqn:Hlog;
          [ destruct (f (tool_command ctx sl sample)) as [[|]|e0];
            [ | destruct (upload_file
                            (path_str (path_div (result_path ctx) (loom ctx)))
                            (s3_output_bucket ctx)
                            (Py.path_join (s3_output_prefix ctx) (loom ctx)))
                  as [e1|] eqn:Hup;
                [ | destruct (dest_dir ns) as [d|] eqn:Hdest ]
            | ]
          | ] ]
    | ] ].

Lemma round_upload_guarded (sample : string) (st : state) :
  upload_guarded (trace st) = true ->
  upload_guarded (trace (snd (process_sample ns upload_file ctx sl sample st)))
  = true.
Proof.
  intros H. each_round sample st; cbn; assumption.
Qed.

(** X9.  In a run of the loop over any list of samples, every upload
    comes right after its log line and that right after a tool call
    that did not report a failure: nothing is uploaded without a tool
    call, nor after a failed one. *)
Theorem upload_after_good_tool_call (todo : list string) (st : state)
    (Hst : upload_guarded (trace st) = true) :
  upload_guarded
    (trace (snd (for_each (process_sample ns upload_file ctx sl) todo st)))
  = true.
Proof.
  revert st Hst. induction todo as [|x todo IH]; intros st Hst; [exact Hst|].
  rewrite for_each_cons.
  pose proof (round_upload_guarded x st Hst) as Hg.
  destruct (process_sample ns upload_file ctx sl x st) as [[[]|e] st'];
    [now apply IH | exact Hg].
Qed.

Lemma round_keeps_dir (sample : string) (st : state) (p : path) :
  (forall d, dest_dir ns = Some d -> is_prefix d p = false) ->
  In p (dirs st) ->
  In p (dirs (snd (process_sample ns upload_file ctx sl sample st))).
Proof.
  intros Hd Hp.
  assert (Hw : In p (with_dir (result_path ctx) (dirs st)))
    by (unfold with_dir; apply in_or_app; now right).
  each_round sample st; cbn; try assumption.
  unfold without_dir. apply filter_In. split; [assumption|].
  now rewrite (Hd d eq_refl).
Qed.

(** X10.  A run of the loop removes nothing outside the directory
    named [dest_dir]: a directory that is on the disk before the run
    and does not lie under [dest_dir] is on the disk after it,
    however the run ends. *)
Theorem run_keeps_other_directories (todo : list string) (st : state) (p : path)
    (Hd : forall d, dest_dir ns = Some d -> is_prefix d p = false)
    (Hp : In p (dirs st)) :
  In p (dirs (snd (for_each (process_sample ns upload_file ctx sl) todo st))).
Proof.
  revert st Hp. induction todo as [|x todo IH]; intros st Hp; [exact Hp|].
  rewrite for_each_cons.
  pose proof (round_keeps_dir x st p Hd Hp) as Hk.
  destruct (process_sample ns upload_file ctx sl x st) as [[[]|e] st'];
    [now apply IH | exact Hk].
Qed.




(** X13.  While [args] has no attribute [min_size], as with the parser
    of this file, no round gets past the size gate: a run over a
    non-empty list of samples raises, at the attribute or at a results
    directory that exists, and nothing is logged, run, uploaded or
    removed. *)
Theorem no_threshold_no_round (todo : list string) (st : state)
    (Hnone : min_size ctx = None) :
  let run := for_each (process_sample ns upload_file ctx sl) todo st in
  trace (snd run) = trace st
  /\ (todo <> [] ->
      fst run = Raise (AttributeError "min_size")
      \/ fst run = Raise (FileExistsError (result_path ctx))).
Proof.
  cbv zeta. destruct todo as [|x todo]; [cbn; split; [reflexivity | congruence]|].
  rewrite for_each_cons.
  destruct (exists_dir (result_path ctx) (dirs st)) eqn:Hdir.
  - rewrite round_exists by assumption. cbn. auto.
  - rewrite round_enter by assumption. rewrite Hnone. cbn. auto.
Qed.

End Runs.

Lemma upload_after_good_tool_call_witness :
  upload_guarded
    (trace (snd (for_each
                   (process_sample (stub_namespace false (Some ["/mnt"; "data"; "sA"]))
                      uploads_ok (demo_ctx (Some 1%Z)) demo_samples)
                   ["sA"; "sB"] demo_state)))
  = true.
Proof.
  apply (upload_after_good_tool_call
           (stub_namespace false (Some ["/mnt"; "data"; "sA"]))
           uploads_ok (demo_ctx (Some 1%Z)) demo_samples ["sA"; "sB"] demo_state).
  reflexivity.
Defined.

Lemma run_keeps_other_directories_witness :
  In ["/mnt"; "data"]
     (dirs (snd (for_each
                   (process_sample
                      (stub_namespace false (Some ["/mnt"; "data"; "results"]))
                      uploads_ok (demo_ctx (Some 1%Z)) demo_samples)
                   ["sA"; "sB"] demo_state))).
Proof.
  apply (run_keeps_other_directories
           (stub_namespace false (Some ["/mnt"; "data"; "results"]))
           uploads_ok (demo_ctx (Some 1%Z)) demo_samples ["sA"; "sB"] demo_state
           ["/mnt"; "data"]).
  - intros d H. inversion H. reflexivity.
  - right. now left.
Defined.



Lemma no_threshold_no_round_witness :
  let run :=
    for_each (process_sample (stub_namespace false None) uploads_ok
                (demo_ctx None) demo_samples)
      ["sA"; "sB"] demo_state in
  trace (snd run) = trace demo_state
  /\ (["sA"; "sB"] <> [] ->
      fst run = Raise (AttributeError "min_size")
      \/ fst run = Raise (FileExistsError (result_path (demo_ctx None)))).
Proof.
  exact (no_threshold_no_round (stub_namespace false None) uploads_ok
           (demo_ctx None) demo_samples ["sA"; "sB"] demo_state eq_refl).
Defined.

(** The parser of this file declares no [min_size] option. *)
Lemma get_parser_has_no_min_size :
  existsb (fun opt => String.eqb (fst opt) "min_size") get_parser = false.
Proof. reflexivity. Qed.

(** X14.  Every candidate of the discovery is an object that the
    listing of the input prefix itself returns, with a key ending in
    [fastq.gz]: in both branches of lines 189-203 the only listing
    that is filtered is that of the input prefix, never that of a
    sub-folder. *)
Theorem candidates_from_the_prefix (s3u : s3_util) (bucket prefix : string)
    (f : string * Z)
    (Hf : In f (list_sample_files s3u bucket prefix)) :
  Py.endswith (fst f) "fastq.gz" = true
  /\ In f (get_size s3u bucket prefix).
Proof.
  destruct (get_files s3u bucket prefix) as [|x xs] eqn:E.
  - rewrite list_sample_files_fallback in Hf by assumption.
    apply in_concat in Hf. destruct Hf as (l & Hl & Hfl).
    apply in_map_iff in Hl. destruct Hl as (folder & <- & _).
    apply filter_In in Hfl. tauto.
  - unfold list_sample_files in Hf. rewrite E in Hf.
    apply filter_In in Hf. tauto.
Qed.

Lemma candidates_from_the_prefix_witness :
  Py.endswith "in/sB_L2_R1_1.fastq.gz" "fastq.gz" = true
  /\ In ("in/sB_L2_R1_1.fastq.gz", 7%Z)
        (get_size (flat_store (("in/notes.txt", 1%Z) :: demo_files)) "bucket" "in").
Proof.
  apply (candidates_from_the_prefix
           (flat_store (("in/notes.txt", 1%Z) :: demo_files)) "bucket" "in"
           ("in/sB_L2_R1_1.fastq.gz", 7%Z)).
  cbn. tauto.
Defined.

(** ** The name of the uploaded file *)

Lemma no_artifact_as_written_witness :
  trace (snd (process_sample module_namespace uploads_ok (demo_ctx (Some 12%Z))
                demo_samples "sA" demo_state))
  = [Info "sA is below min_size, skipping"].
Proof.
  apply (proj1 no_artifact_as_written uploads_ok (demo_ctx (Some 12%Z))
           demo_samples "sA" demo_state).
  reflexivity.
Defined.

Lemma split_slash_plain (l : list ascii) :
  Forall (fun a => a <> "/"%char) l -> split_slash l = [l].
Proof.
  induction 1 as [|a l Ha _ IH]; cbn; [reflexivity|].
  destruct (Ascii.eqb_spec a "/"); [contradiction|]. now rewrite IH.
Qed.

(** For a sample name without a slash the uploaded file is
    [sample_name.loom] in the results directory. *)
Lemma path_div_plain (p : path) (name : string) :
  Forall (fun a => a <> "/"%char) (list_ascii_of_string name) ->
  path_div p (name ++ ".loom") = (p ++ [(name ++ ".loom")%string])%list.
Proof.
  intros Hname.
  assert (Hall : Forall (fun a => a <> "/"%char)
                   (list_ascii_of_string (name ++ ".loom"))).
  { rewrite list_ascii_of_string_app. apply Forall_app. split; [assumption|].
    cbn. repeat constructor; discriminate. }
  assert (Hparts : plain_parts (name ++ ".loom") = [name ++ ".loom"]).
  { unfold plain_parts. rewrite split_slash_plain by assumption.
    cbn [map filter]. rewrite string_of_list_ascii_of_string.
    destruct name as [|a [|b name]]; cbn; try reflexivity.
    - now destruct (Ascii.eqb a ".").
    - now destruct (Ascii.eqb a "."). }
  assert (Hroot : posix_root (name ++ ".loom") = "").
  { unfold posix_root.
    destruct name as [|a name]; [reflexivity|].
    inversion Hname as [|? ? Ha _]; subst.
    assert (E : Ascii.eqb "/" a = false) by (apply Ascii.eqb_neq; congruence).
    cbn [String.append list_ascii_of_string Py.prefixb]. now rewrite E. }
  unfold path_div. now rewrite Hroot, Hparts.
Qed.
